(** * django_vue: server-rendered views repackaged as Vue components

    A shallow embedding of [src/django_vue/views.py] and
    [src/django_vue/mixins.py].  Python strings are [string]s of bytes,
    the BeautifulSoup tree is an inductive type of nodes, the view objects
    live in a store indexed by object identity, and the methods of the views
    run in a small state-and-exception monad over that store. *)

From Stdlib Require Import String Ascii List Bool Arith Lia Permutation.
Import ListNotations.

Local Open Scope string_scope.
Local Open Scope list_scope.

(** ** Python strings *)

Module Py.

Definition newline : ascii := ascii_of_nat 10.
Definition nl : string := String newline EmptyString.
Definition dquote : string := String (ascii_of_nat 34) EmptyString.

(** [n] blanks, the indentation inside the triple-quoted f-strings. *)
Fixpoint spaces (n : nat) : string :=
  match n with
  | O => EmptyString
  | S k => String " " (spaces k)
  end.

(** [s.startswith(p)]. *)
Fixpoint startswith (p s : string) : bool :=
  match p, s with
  | EmptyString, _ => true
  | String _ _, EmptyString => false
  | String a p', String b s' => Ascii.eqb a b && startswith p' s'
  end.

(** [sub in s]. *)
Fixpoint contains (sub s : string) : bool :=
  startswith sub s ||
  match s with
  | EmptyString => false
  | String _ s' => contains sub s'
  end.

(** [s.replace(old, new)] for a non-empty [old] (both call sites pass a
    two-character literal): a left-to-right scan that replaces every
    non-overlapping occurrence.  [skip] counts the characters of an
    occurrence that has just been replaced and are still to be passed. *)
Fixpoint replace_from (old new : string) (skip : nat) (s : string) : string :=
  match s with
  | EmptyString => EmptyString
  | String c s' =>
      match skip with
      | S k => replace_from old new k s'
      | O =>
          if startswith old s
          then new ++ replace_from old new (String.length old - 1) s'
          else String c (replace_from old new 0 s')
      end
  end.

Definition replace (old new s : string) : string := replace_from old new 0 s.

(** [sep.join(l)]. *)
Fixpoint join (sep : string) (l : list string) : string :=
  match l with
  | [] => EmptyString
  | x :: r =>
      match r with
      | [] => x
      | _ :: _ => x ++ sep ++ join sep r
      end
  end.

Definition is_lower (c : ascii) : bool :=
  ((97 <=? nat_of_ascii c) && (nat_of_ascii c <=? 122))%nat.

Definition is_upper (c : ascii) : bool :=
  ((65 <=? nat_of_ascii c) && (nat_of_ascii c <=? 90))%nat.

(** [c.upper()] and [c.lower()] on the ASCII range. *)
Definition upper (c : ascii) : ascii :=
  if is_lower c then ascii_of_nat (nat_of_ascii c - 32) else c.

Definition lower (c : ascii) : ascii :=
  if is_upper c then ascii_of_nat (nat_of_ascii c + 32) else c.

Fixpoint drop (n : nat) (s : string) : string :=
  match n, s with
  | O, _ => s
  | S _, EmptyString => EmptyString
  | S k, String _ s' => drop k s'
  end.

(** Truth value of a string: only the empty string is falsy. *)
Definition truthy (s : string) : bool :=
  match s with
  | EmptyString => false
  | String _ _ => true
  end.

(** The character [a] twice, and whether a string starts with [a]. *)
Definition twice (a : ascii) : string := String a (String a EmptyString).

Definition starts (a : ascii) (s : string) : bool :=
  match s with
  | EmptyString => false
  | String c _ => Ascii.eqb a c
  end.

(** [t] occurs in [s]. *)
Definition substring_of (t s : string) : Prop :=
  exists pre post : string, s = (pre ++ t ++ post)%string.

End Py.

(** ** The [re] and [inflection] calls of [get_vue_name] *)

Module Re.

Import Py.

(** [re.IGNORECASE], as an integer. *)
Definition IGNORECASE : nat := 2.

Definition ignorecase (flags : nat) : bool := Nat.testbit flags 1.

(** A literal of the pattern matched at the start of [s]; under
    [IGNORECASE] letters compare without case. *)
Fixpoint literal (ic : bool) (p s : string) : bool :=
  match p, s with
  | EmptyString, _ => true
  | String _ _, EmptyString => false
  | String a p', String b s' =>
      (if ic then Ascii.eqb (lower a) (lower b) else Ascii.eqb a b)
      && literal ic p' s'
  end.

(** [$] without [MULTILINE]: the end of the string, or just before a
    newline that ends the string. *)
Definition dollar (s : string) : bool :=
  match s with
  | EmptyString => true
  | String c EmptyString => Ascii.eqb c newline
  | String _ (String _ _) => false
  end.

(** [(component|view)$] matched at the start of [s]: the text after the
    match, the alternatives tried in order. *)
Definition match_here (ic : bool) (s : string) : option string :=
  if literal ic "component" s && dollar (drop 9 s) then Some (drop 9 s)
  else if literal ic "view" s && dollar (drop 4 s) then Some (drop 4 s)
  else None.

(** [re.sub(r"(component|view)$", "", s, count, flags)]: the leftmost
    match is replaced by the empty string.  What follows a match is empty
    or one newline, where the pattern cannot match again, so a positive
    [count] never cuts the substitution short. *)
Fixpoint sub_component_view (count flags : nat) (s : string) : string :=
  match match_here (ignorecase flags) s with
  | Some rest => rest
  | None =>
      match s with
      | EmptyString => EmptyString
      | String c s' => String c (sub_component_view count flags s')
      end
  end.

(** [inflection.camelize(s)], that is
    [re.sub(r"(?:^|_)(.)", lambda m: m.group(1).upper(), s)]: the first
    character, and every character after an underscore (the underscore
    is dropped), is upper-cased; [.] does not match a newline. *)
Fixpoint camelize_tail (s : string) : string :=
  match s with
  | EmptyString => EmptyString
  | String a t =>
      match t with
      | EmptyString => String a EmptyString
      | String c t' =>
          if Ascii.eqb a "_" && negb (Ascii.eqb c newline)
          then String (upper c) (camelize_tail t')
          else String a (camelize_tail t)
      end
  end.

Definition camelize (s : string) : string :=
  match s with
  | EmptyString => EmptyString
  | String c t =>
      if Ascii.eqb c newline then String c (camelize_tail t)
      else String (upper c) (camelize_tail t)
  end.

End Re.

(** ** The BeautifulSoup tree *)

Module Bs4.

(** A parsed document: text nodes ([NavigableString] and its
    subclasses) and elements with their attributes and children.  The
    [BeautifulSoup] object itself is the list of its top-level nodes. *)
#[local] Unset Elimination Schemes.
Inductive node : Type :=
| NavigableString (text : string)
| Tag (name : string) (attrs : list (string * string)) (contents : list node).
#[local] Set Elimination Schemes.

Definition soup : Type := list node.

(** [soup.new_tag(name, attrs=...)]. *)
Definition new_tag (name : string) (attrs : list (string * string)) : node :=
  Tag name attrs [].

Definition is_tag (name : string) (n : node) : bool :=
  match n with
  | NavigableString _ => false
  | Tag t _ _ => String.eqb t name
  end.

Definition tag_contents (n : node) : list node :=
  match n with
  | NavigableString _ => []
  | Tag _ _ cs => cs
  end.

(** [tag.get(key)]: [None] when the attribute is absent. *)
Fixpoint lookup (key : string) (attrs : list (string * string)) : option string :=
  match attrs with
  | [] => None
  | (k, v) :: r => if String.eqb k key then Some v else lookup key r
  end.

Definition get_attr (key : string) (n : node) : option string :=
  match n with
  | NavigableString _ => None
  | Tag _ a _ => lookup key a
  end.

(** A node followed by its descendants, in document order. *)
Fixpoint self_and_descendants (n : node) : list node :=
  match n with
  | NavigableString _ => [n]
  | Tag _ _ cs => n :: flat_map self_and_descendants cs
  end.

(** [tag.descendants], for the children [l] of the tag. *)
Definition descendants (l : list node) : list node :=
  flat_map self_and_descendants l.

(** [tag.find_all(name)] on the children [l] of the tag, and
    [tag.find(name)], its first result or [None]. *)
Definition find_all (name : string) (l : list node) : list node :=
  filter (is_tag name) (descendants l).

Definition find (name : string) (l : list node) : option node :=
  hd_error (find_all name l).

(** The tree [l] once every element called [name] has been taken out of
    its parent. *)
Fixpoint strip_node (name : string) (n : node) : list node :=
  match n with
  | NavigableString _ => [n]
  | Tag t a cs =>
      if String.eqb t name then []
      else [Tag t a (flat_map (strip_node name) cs)]
  end.

Definition strip (name : string) (l : list node) : list node :=
  flat_map (strip_node name) l.

(** An element once the elements called [name] below it have been taken
    out of it. *)
Definition prune (name : string) (n : node) : node :=
  match n with
  | NavigableString _ => n
  | Tag t a cs => Tag t a (strip name cs)
  end.

(** [[e.extract() for e in tag.find_all(name)]] on the children [l] of
    [tag]: the list is built first, then each of its elements is unlinked
    from its parent, in document order.  The extracted elements are the
    objects of the list, so one that had another match below it has lost
    it by the end of the loop; what is left of the tree has lost every
    match.  The result is the list of extracted elements and the
    remaining children. *)
Definition extract_all (name : string) (l : list node) : list node * list node :=
  (map (prune name) (find_all name l), strip name l).

(** [tag.append(child)] and the rebuilding of a tag's children. *)
Definition append (child : node) (n : node) : node :=
  match n with
  | NavigableString _ => n
  | Tag t a cs => Tag t a (cs ++ [child])
  end.

Definition set_contents (cs : list node) (n : node) : node :=
  match n with
  | NavigableString _ => n
  | Tag t a _ => Tag t a cs
  end.

(** The tree after the element returned by [find(name)] has been
    changed in place by [f]; [None] when [find(name)] is [None]. *)
Fixpoint update_node (name : string) (f : node -> node) (n : node) : option node :=
  match n with
  | NavigableString _ => None
  | Tag t a cs =>
      if String.eqb t name then Some (f n)
      else
        match
          (fix update_forest (l : list node) : option (list node) :=
             match l with
             | [] => None
             | x :: r =>
                 match update_node name f x with
                 | Some x' => Some (x' :: r)
                 | None =>
                     match update_forest r with
                     | Some r' => Some (x :: r')
                     | None => None
                     end
                 end
             end) cs
        with
        | Some cs' => Some (Tag t a cs')
        | None => None
        end
  end.

Fixpoint update_first (name : string) (f : node -> node) (l : list node)
  : option (list node) :=
  match l with
  | [] => None
  | x :: r =>
      match update_node name f x with
      | Some x' => Some (x' :: r)
      | None =>
          match update_first name f r with
          | Some r' => Some (x :: r')
          | None => None
          end
      end
  end.

(** [tag.extend(cs)]: the nodes [cs] after the children of the tag. *)
Definition extend (cs : list node) (n : node) : node :=
  match n with
  | NavigableString _ => n
  | Tag t a old => Tag t a (old ++ cs)
  end.

End Bs4.

(** ** The views *)

Module DjangoVue.

Import Py Bs4.

(** *** Exceptions and results *)

Inductive exn : Type :=
| AttributeError (attribute : string)   (* an attribute looked up on [None] *)
| NameError (name : string)             (* a name that is not defined *)
| Exception (message : string).         (* raised by a collaborator *)

Inductive result (A : Type) : Type :=
| Ok (a : A)
| Raise (e : exn).

Arguments Ok {A} a.
Arguments Raise {A} e.

Definition result_bind {A B : Type} (r : result A) (k : A -> result B) : result B :=
  match r with
  | Ok a => k a
  | Raise e => Raise e
  end.

(** [[x for x in l if p(x)]] where [p] may raise. *)
Fixpoint filter_raising {A : Type} (p : A -> result bool) (l : list A)
  : result (list A) :=
  match l with
  | [] => Ok []
  | x :: r =>
      result_bind (p x) (fun b =>
      result_bind (filter_raising p r) (fun r' =>
      Ok (if b then x :: r' else r')))
  end.

(** *** Collaborators

    The HTML parser and serializer, [json.dumps] and Django's [static]
    are used as black boxes. *)

Inductive parser : Type := lxml | html5lib.

#[local] Unset Elimination Schemes.
Inductive json : Type :=
| JNull
| JBool (b : bool)
| JNumber (n : nat)
| JString (s : string)
| JArray (l : list json)
| JObject (l : list (string * json)).
#[local] Set Elimination Schemes.

Class Libraries : Type := {
  (** [BeautifulSoup(content, parser)] *)
  BeautifulSoup : string -> parser -> result soup;
  (** [tag.renderContents().decode("utf-8")], on the children of [tag] *)
  renderContents : list node -> string;
  (** [json.dumps(value)] *)
  json_dumps : json -> string;
  (** [static(path)] *)
  static : string -> string
}.

(** *** View objects *)

Inductive HttpRequest : Type := Request (path : string).

Definition kwargs : Type := list (string * string).

(** The class of the repository a view class derives from. *)
Inductive base_class : Type :=
| DjangoVueComponent
| SingleFileVueComponent
| DjangoVueComponentMixin.

(** Identity of a view object. *)
Definition oid : Type := nat.

(** A view object.  [render r kw] stands for [get_context_data] on the
    keyword arguments [kw], [render_to_response(context)] and
    [response.render()] of the host framework, which reads [self.request],
    here [r]: the content of the rendered response, or the exception
    raised on the way.  The dicts are
    association lists in insertion order. *)
Record view : Type := {
  class_name : string;
  base : base_class;
  vue_components : list (string * oid);
  vue_data : json;
  vue_emits : list string;
  vue_props : list string;
  vue_routes : list (string * oid);
  render : option HttpRequest -> kwargs -> result string;
  request : option HttpRequest
}.

(** [self.request], as the host framework reads it while it renders. *)
Definition current_request (v : view) : option HttpRequest := request v.

Definition store : Type := oid -> view.

Definition with_request (r : HttpRequest) (v : view) : view :=
  {| class_name := class_name v;
     base := base v;
     vue_components := vue_components v;
     vue_data := vue_data v;
     vue_emits := vue_emits v;
     vue_props := vue_props v;
     vue_routes := vue_routes v;
     render := render v;
     request := Some r |}.

(** *** The monad of the methods: a store of view objects and exceptions *)

Definition M (A : Type) : Type := store -> result A * store.

Definition ret {A : Type} (a : A) : M A := fun st => (Ok a, st).

Definition bind {A B : Type} (m : M A) (k : A -> M B) : M B :=
  fun st =>
    match m st with
    | (Ok a, st') => k a st'
    | (Raise e, st') => (Raise e, st')
    end.

Definition lift {A : Type} (r : result A) : M A := fun st => (r, st).

Definition read (o : oid) : M view := fun st => (Ok (st o), st).

(** [self.request = request] *)
Definition set_request (o : oid) (r : HttpRequest) : M unit :=
  fun st => (Ok tt, fun o' => if Nat.eqb o' o then with_request r (st o') else st o').

Declare Scope py_scope.
Delimit Scope py_scope with py.
Notation "x <- m ;; k" := (bind m (fun x => k))
  (at level 61, m at next level, right associativity) : py_scope.
Notation "m ;; k" := (bind m (fun _ => k))
  (at level 61, right associativity) : py_scope.
Local Open Scope py_scope.

(** [[f(x) for x in l]] *)
Fixpoint for_each {A B : Type} (f : A -> M B) (l : list A) : M (list B) :=
  match l with
  | [] => ret []
  | x :: r => y <- f x ;; ys <- for_each f r ;; ret (y :: ys)
  end.

(** *** Python dicts, in insertion order *)

(** [d[k] = v]: a key already present keeps its place and takes the new
    value, a new key goes to the end. *)
Fixpoint dict_set {V : Type} (k : string) (v : V) (d : list (string * V))
  : list (string * V) :=
  match d with
  | [] => [(k, v)]
  | (k', v') :: r =>
      if String.eqb k' k then (k', v) :: r else (k', v') :: dict_set k v r
  end.

(** [{key(c): c for c in l}] *)
Definition dict_by {V : Type} (key : V -> string) (l : list V)
  : list (string * V) :=
  fold_left (fun d c => dict_set (key c) c d) l [].

Definition values {K V : Type} (d : list (K * V)) : list V := map snd d.

(** [d.get(k)] *)
Fixpoint dict_get {V : Type} (k : string) (d : list (string * V)) : option V :=
  match d with
  | [] => None
  | (k', v) :: r => if String.eqb k' k then Some v else dict_get k r
  end.

(** The last element of [l] whose key is [k]. *)
Definition last_by {V : Type} (key : V -> string) (k : string) (l : list V)
  : option V :=
  List.find (fun c => String.eqb (key c) k) (rev l).

(** [a or b] on an optional string: [None] and the empty string are
    falsy. *)
Definition is_truthy (template : option string) : bool :=
  match template with
  | None => false
  | Some t => truthy t
  end.

Definition get_store : M store := fun st => (Ok st, st).

(** From the store [st] to the store [st'], nothing was written but the
    attribute [request], and only on objects of [objs]. *)
Definition writes_only (r : HttpRequest) (objs : list oid) (st st' : store) : Prop :=
  forall o, st' o = st o \/ (In o objs /\ st' o = with_request r (st o)).

(** The objects of [st'] have the class and the rendering they have in
    [st]. *)
Definition same_views (st st' : store) : Prop :=
  forall o, base (st' o) = base (st o) /\ render (st' o) = render (st o).

(** *** The methods of the views *)

Section Methods.

Context {L : Libraries}.

(** [re.IGNORECASE] is the fourth positional argument of [re.sub],
    which is [count]; [flags] keeps its default, 0. *)
Definition get_vue_name (v : view) : string :=
  Re.camelize (Re.sub_component_view Re.IGNORECASE 0 (class_name v)).

Definition get_vue_components (v : view) : list (string * oid) := vue_components v.
Definition get_vue_data (v : view) : json := vue_data v.
Definition get_vue_emits (v : view) : list string := vue_emits v.
Definition get_vue_props (v : view) : list string := vue_props v.
Definition get_vue_routes (v : view) : list (string * oid) := vue_routes v.

(** [views.py] parses with lxml, [mixins.py] with html5lib. *)
Definition parser_of (b : base_class) : parser :=
  match b with
  | DjangoVueComponentMixin => html5lib
  | DjangoVueComponent | SingleFileVueComponent => lxml
  end.

(** [template.replace("[[", "{{").replace("]]", "}}")] *)
Definition replace_delimiters (template : string) : string :=
  replace "]]" "}}" (replace "[[" "{{" template).

(** [body = soup.find("body")], as used by the attribute access that
    follows: [None] has no [find_all]. *)
Definition find_body (s : soup) : result node :=
  match find "body" s with
  | Some b => Ok b
  | None => Raise (AttributeError "find_all")
  end.

Definition get_vue_template (self : oid) (request : HttpRequest) (kw : kwargs)
  : M string :=
  set_request self request ;;
  v <- read self ;;
  content <- lift (render v (current_request v) kw) ;;
  match base v with
  | SingleFileVueComponent => ret (replace_delimiters content)
  | DjangoVueComponent | DjangoVueComponentMixin =>
      soup <- lift (BeautifulSoup content (parser_of (base v))) ;;
      body <- lift (find_body soup) ;;
      let (_styles, rest) := extract_all "style" (tag_contents body) in
      let (_scripts, rest') := extract_all "script" rest in
      ret (replace_delimiters (renderContents rest'))
  end.

Definition json_strings (l : list string) : json := JArray (map JString l).

(** The f-string of [get_vue_definition]. *)
Definition component_definition (v : view) (template : string) : string :=
  nl ++ spaces 12 ++ "const " ++ get_vue_name v ++ " = {" ++ nl
  ++ spaces 14 ++ "data() {" ++ nl
  ++ spaces 16 ++ "return " ++ json_dumps (get_vue_data v) ++ nl
  ++ spaces 14 ++ "}," ++ nl
  ++ spaces 14 ++ "emits: " ++ json_dumps (json_strings (get_vue_emits v)) ++ "," ++ nl
  ++ spaces 14 ++ "props: " ++ json_dumps (json_strings (get_vue_props v)) ++ "," ++ nl
  ++ spaces 14 ++ "template: `" ++ template ++ "`," ++ nl
  ++ spaces 12 ++ "}" ++ nl
  ++ spaces 8.

(** The f-string of [SingleFileVueComponent.get_vue_definition]. *)
Definition single_file_definition (v : view) (template : string) : string :=
  nl ++ spaces 12 ++ "const " ++ get_vue_name v
  ++ " = Vue.defineAsyncComponent(() => loadModule(" ++ dquote
  ++ get_vue_name v ++ ".vue" ++ dquote ++ ", {" ++ nl
  ++ spaces 14 ++ "moduleCache: {" ++ nl
  ++ spaces 16 ++ "vue: Vue," ++ nl
  ++ spaces 14 ++ "}," ++ nl
  ++ spaces 14 ++ "getFile(url) {" ++ nl
  ++ spaces 16 ++ "return Promise.resolve(/*<!--*/`" ++ template ++ "`/*-->*/)" ++ nl
  ++ spaces 14 ++ "}," ++ nl
  ++ spaces 12 ++ "}))" ++ nl
  ++ spaces 8.

(** [get_vue_definition(request, template)]; [template] is [None] when
    the argument is left out.  [SingleFileVueComponent] overrides the
    method without the parameter and always renders. *)
Definition get_vue_definition (self : oid) (request : HttpRequest)
    (template : option string) : M string :=
  v <- read self ;;
  match base v with
  | SingleFileVueComponent =>
      t <- get_vue_template self request [] ;;
      ret (single_file_definition v t)
  | DjangoVueComponent | DjangoVueComponentMixin =>
      t <- match template with
           | Some t => if truthy t then ret t else get_vue_template self request []
           | None => get_vue_template self request []
           end ;;
      ret (component_definition v t)
  end.

(** The lambda [lambda x: x and name in x] of [views.py], on the value
    of [src] ([None] when the attribute is absent). *)
Definition src_mentions (name : string) (x : option string) : bool :=
  match x with
  | None => false
  | Some u => truthy u && contains name u
  end.

(** [script_present(name)] of [views.py]. *)
Definition script_present (name : string) (s : soup) : bool :=
  (0 <? List.length
          (filter (fun n => src_mentions name (get_attr "src" n))
                  (find_all "script" s)))%nat.

(** [head.append(tag)], where [head = soup.find("head")] was looked up
    before the first append; appending a script to it leaves it the
    first [head] of the document. *)
Definition head_append (tag : node) (s : soup) : result soup :=
  match update_first "head" (append tag) s with
  | Some s' => Ok s'
  | None => Raise (AttributeError "append")
  end.

Definition script_tag (src : string) : node := new_tag "script" [("src", src)].

(** One [if not script_present(name): head.append(...)] of [views.py]. *)
Definition add_unless_present (name src : string) (s : soup) : result soup :=
  if script_present name s then Ok s else head_append (script_tag src) s.

Definition view_libraries : list (string * string) :=
  [ ("vue", "https://unpkg.com/vue@next");
    ("vue-router", "https://unpkg.com/vue-router@next");
    ("vue3-sfc-loader",
     "https://cdn.jsdelivr.net/npm/vue3-sfc-loader/dist/vue3-sfc-loader.js");
    ("axios", "https://unpkg.com/axios/dist/axios.min.js");
    ("django-vue", static "django-vue.js") ].

(** The lambda [lambda x: x and name in x] of [mixins.py], where no
    [name] is in scope: the parameter is called [identifier]. *)
Definition src_mentions_unbound (x : option string) : result bool :=
  match x with
  | None => Ok false
  | Some u => if truthy u then Raise (NameError "name") else Ok false
  end.

(** [any(l)] on a list of tags; a tag is truthy. *)
Definition any_tag (l : list node) : bool := existsb (fun _ => true) l.

(** [add_script_if_not_present(identifier, src)] of [mixins.py]. *)
Definition add_script_if_not_present (identifier src : string) (s : soup)
  : result soup :=
  result_bind
    (filter_raising (fun n => src_mentions_unbound (get_attr "src" n))
                    (find_all "script" s))
    (fun found =>
       if any_tag found then head_append (script_tag src) s else Ok s).

Definition mixin_libraries : list (string * string) :=
  [ ("axios", "https://unpkg.com/axios");
    ("vue", "https://unpkg.com/vue@next");
    ("vue-router", "https://unpkg.com/vue-router@next");
    ("vue3-sfc-loader", "https://cdn.jsdelivr.net/npm/vue3-sfc-loader") ].

(** The calls one after the other, each on the document left by the one
    before. *)
Definition in_turn (add : string -> string -> soup -> result soup)
    (libraries : list (string * string)) (s : soup) : result soup :=
  fold_left
    (fun acc lib => result_bind acc (add (fst lib) (snd lib)))
    libraries (Ok s).

Definition add_required_scripts (b : base_class) (s : soup) : result soup :=
  match b with
  | DjangoVueComponentMixin => in_turn add_script_if_not_present mixin_libraries s
  | DjangoVueComponent | SingleFileVueComponent =>
      in_turn add_unless_present view_libraries s
  end.

(** The candidates for the app, in the order of the comprehension. *)
Definition candidates (v : view) (self : oid) : list oid :=
  values (get_vue_components v) ++ values (get_vue_routes v) ++ [self].

(** [{c.get_vue_name(): c for c in ...}.values()] *)
Definition instances (st : store) (v : view) (self : oid) : list oid :=
  values (dict_by (fun c => get_vue_name (st c)) (candidates v self)).

Definition registration (st : store) (kv : string * oid) : string :=
  "app.component(" ++ dquote ++ fst kv ++ dquote ++ ", "
  ++ get_vue_name (st (snd kv)) ++ ")".

Definition route (st : store) (kv : string * oid) : string :=
  "{ path: " ++ dquote ++ fst kv ++ dquote ++ ", component: "
  ++ get_vue_name (st (snd kv)) ++ " }".

(** The f-string assigned to [vue.string]. *)
Definition app_script (st : store) (v : view) (definitions : string) : string :=
  nl ++ spaces 12 ++ "const { loadModule } = window[" ++ dquote
  ++ "vue3-sfc-loader" ++ dquote ++ "];" ++ nl
  ++ spaces 12 ++ definitions ++ nl
  ++ spaces 12 ++ "const app = Vue.createApp(" ++ get_vue_name v ++ ")" ++ nl
  ++ spaces 12 ++ join nl (map (registration st) (get_vue_components v)) ++ nl
  ++ spaces 12 ++ "const router = VueRouter.createRouter({" ++ nl
  ++ spaces 14 ++ "history: VueRouter.createWebHashHistory()," ++ nl
  ++ spaces 14 ++ "routes: [" ++ join "," (map (route st) (get_vue_routes v)) ++ "]" ++ nl
  ++ spaces 12 ++ "})" ++ nl
  ++ spaces 12 ++ "app.use(router)" ++ nl
  ++ spaces 12 ++ "app.mount(" ++ dquote ++ "#app" ++ dquote ++ ")" ++ nl
  ++ spaces 8.

(** The new children of the body. *)
Definition new_body (styles scripts : list node) (script_text : string)
  : list node :=
  styles
  ++ [new_tag "div" [("id", "app")]; Tag "script" [] [NavigableString script_text]]
  ++ scripts.

(** [body.clear()] and the calls that fill the body again, on the
    element found by [soup.find("body")]. *)
Definition rebuild_body (cs : list node) (s : soup) : soup :=
  match update_first "body" (set_contents cs) s with
  | Some s' => s'
  | None => s
  end.

(** [get], up to the document that is serialized into the response. *)
Definition get_soup (self : oid) (request : HttpRequest) (kw : kwargs) : M soup :=
  v <- read self ;;
  content <- lift (render v (current_request v) kw) ;;
  soup <- lift (BeautifulSoup content (parser_of (base v))) ;;
  soup <- lift (add_required_scripts (base v) soup) ;;
  body <- lift (find_body soup) ;;
  let (styles, rest) := extract_all "style" (tag_contents body) in
  let (scripts, _) := extract_all "script" rest in
  st <- get_store ;;
  definitions <- for_each (fun c => get_vue_definition c request None)
                          (instances st v self) ;;
  ret (rebuild_body
         (new_body styles scripts (app_script st v (join nl definitions)))
         soup).

(** [get]: the content of the response it returns. *)
Definition get (self : oid) (request : HttpRequest) (kw : kwargs) : M string :=
  soup <- get_soup self request kw ;;
  ret (renderContents soup).

(** A script element whose [src] mentions [name]. *)
Definition is_script_for (name : string) (n : node) : bool :=
  is_tag "script" n && src_mentions name (get_attr "src" n).

(** The sources of the libraries of [libraries] that no script element of
    the document [s] mentions. *)
Definition missing (libraries : list (string * string)) (s : soup) : list string :=
  map snd (filter (fun lib => negb (script_present (fst lib) s)) libraries).

(** Whether a script element below the head of the document mentions
    [name]. *)
Definition referenced_in_head (name : string) (s : soup) : bool :=
  match find "head" s with
  | Some h => existsb (is_script_for name) (descendants (tag_contents h))
  | None => false
  end.

(** No source of the list mentions the name of a library further down the
    list. *)
Fixpoint independent (libraries : list (string * string)) : bool :=
  match libraries with
  | [] => true
  | lib :: r =>
      forallb (fun later => negb (src_mentions (fst later) (Some (snd lib)))) r
      && independent r
  end.

End Methods.

End DjangoVue.

(** ** Sample collaborators, documents and views

    A serializer without escaping, a parser known on a few contents, and a
    store of views, on which the statements below are evaluated. *)

Module Sample.

Import Py Bs4 DjangoVue.

Fixpoint render_attrs (a : list (string * string)) : string :=
  match a with
  | [] => EmptyString
  | (k, v) :: r => " " ++ k ++ "=" ++ dquote ++ v ++ dquote ++ render_attrs r
  end.

Fixpoint render_node (n : node) : string :=
  match n with
  | NavigableString s => s
  | Tag t a cs =>
      "<" ++ t ++ render_attrs a ++ ">"
      ++ String.concat EmptyString (map render_node cs) ++ "</" ++ t ++ ">"
  end.

Definition render_nodes (l : list node) : string :=
  String.concat EmptyString (map render_node l).

Definition html (head body : list node) : soup :=
  [Tag "html" [] [Tag "head" [] head; Tag "body" [] body]].

Definition hello_content : string :=
  "<html><head></head><body><p>[[ message ]]</p><style>p { color: red }</style><script src='https://unpkg.com/axios'></script></body></html>".

Definition hello_soup : soup :=
  html []
    [ Tag "p" [] [NavigableString "[[ message ]]"];
      Tag "style" [] [NavigableString "p { color: red }"];
      Tag "script" [("src", "https://unpkg.com/axios")] [] ].

Definition item_content : string :=
  "<html><head></head><body><li>[[ item ]]</li></body></html>".

Definition item_soup : soup :=
  html [] [Tag "li" [] [NavigableString "[[ item ]]"]].

Definition router_content : string :=
  "<html><head><script src='https://unpkg.com/vue-router@next'></script></head><body><router-view></router-view></body></html>".

Definition router_soup : soup :=
  html [Tag "script" [("src", "https://unpkg.com/vue-router@next")] []]
       [Tag "router-view" [] []].

Definition empty_content : string := "<html><head></head><body></body></html>".

Definition empty_soup : soup := html [] [].

Definition parse (content : string) (p : parser) : result soup :=
  if String.eqb content hello_content then Ok hello_soup
  else if String.eqb content item_content then Ok item_soup
  else if String.eqb content router_content then Ok router_soup
  else if String.eqb content empty_content then Ok empty_soup
  else if String.eqb content "<<" then Raise (Exception "ParserRejectedMarkup")
  else Ok [].

#[export] Instance libraries : Libraries := {|
  BeautifulSoup := parse;
  renderContents := render_nodes;
  json_dumps := fun _ => "{}";
  static := fun path => ("/static/" ++ path)%string
|}.

Definition a_view (name : string) (b : base_class)
    (components routes : list (string * oid)) (content : result string) : view :=
  {| class_name := name;
     base := b;
     vue_components := components;
     vue_data := JObject [];
     vue_emits := [];
     vue_props := [];
     vue_routes := routes;
     render := fun _ _ => content;
     request := None |}.

Definition foo_component : view :=
  a_view "FooComponent" DjangoVueComponent [] [] (Ok item_content).

Definition bar_view : view :=
  a_view "BarView" DjangoVueComponent [] [] (Ok item_content).

(** Object 0 is a page with a sub-component (object 1) and two routes
    (objects 2 and 3); objects 1 and 3 derive the same component name.
    Object 4 is a page whose document already loads vue-router, object 5
    a mixin view on an empty document, object 6 a view whose template is
    missing, object 7 one whose markup the parser rejects and object 8 a
    mixin view on the document of object 4. *)
Definition objects (o : oid) : view :=
  match o with
  | 0 => a_view "HelloView" DjangoVueComponent
           [("item", 1)] [("/", 2); ("/items", 3)] (Ok hello_content)
  | 1 => a_view "Item" DjangoVueComponent [] [] (Ok item_content)
  | 2 => a_view "Home" SingleFileVueComponent [] [] (Ok item_content)
  | 3 => a_view "Itemview" DjangoVueComponent [] [] (Ok empty_content)
  | 4 => a_view "RouterPage" DjangoVueComponent [] [] (Ok router_content)
  | 5 => a_view "MixedIn" DjangoVueComponentMixin [] [] (Ok empty_content)
  | 6 => a_view "Missing" DjangoVueComponent [] []
           (Raise (Exception "TemplateDoesNotExist"))
  | 7 => a_view "Rejected" DjangoVueComponent [] [] (Ok "<<")
  | 8 => a_view "MixedInRouter" DjangoVueComponentMixin [] [] (Ok router_content)
  | _ => a_view "Item" DjangoVueComponent [] [] (Ok item_content)
  end.

Definition a_request : HttpRequest := Request "/".

(** The store once the host framework has set the request on the view
    that it dispatches to, here object 6. *)
Definition dispatched : store :=
  fun o => if Nat.eqb o 6 then with_request a_request (objects o) else objects o.

(** The document that [get] builds for object 4, and the store it leaves. *)
Definition router_page_soup : soup :=
  match fst (get_soup 4 a_request [] objects) with
  | Ok s => s
  | Raise _ => []
  end.

Definition router_page_store : store := snd (get_soup 4 a_request [] objects).

(** The document that [get] builds for object 0, and the store it leaves. *)
Definition hello_page_soup : soup :=
  match fst (get_soup 0 a_request [] objects) with
  | Ok s => s
  | Raise _ => []
  end.

Definition hello_page_store : store := snd (get_soup 0 a_request [] objects).

End Sample.

(** ** Conditions and measures used in the further properties *)

Module Further.

Import Py Bs4 DjangoVue.

(** The texts of a tree, in document order. *)
Definition texts (l : list node) : list string :=
  flat_map (fun n => match n with
                     | NavigableString s => [s]
                     | Tag _ _ _ => []
                     end)
           (descendants l).

(** A script element with a non-empty [src]: the elements on which the
    lambda of [mixins.py] evaluates [name]. *)
Definition has_src (n : node) : bool :=
  match get_attr "src" n with
  | Some u => truthy u
  | None => false
  end.


(** A document without a head and one without a body, as lxml builds them,
    and a parser that knows them. *)
Definition headless_content : string := "<p>[[ message ]]</p>".

Definition headless_soup : soup :=
  [Tag "html" [] [Tag "body" [] [Tag "p" [] [NavigableString "[[ message ]]"]]]].

Definition bodyless_content : string := "<html><head></head></html>".

Definition bodyless_soup : soup := [Tag "html" [] [Tag "head" [] []]].

Definition parse (content : string) (p : parser) : result soup :=
  if String.eqb content headless_content then Ok headless_soup
  else if String.eqb content bodyless_content then Ok bodyless_soup
  else Sample.parse content p.

#[export] Instance libraries : Libraries := {|
  BeautifulSoup := parse;
  renderContents := Sample.render_nodes;
  json_dumps := fun _ => "{}";
  static := fun path => ("/static/" ++ path)%string
|}.

(** Object 9 renders the document without a head, object 10 the one
    without a body; object 11 is a page with two sub-components of distinct
    names; the others are those of [Sample.objects]. *)
Definition objects (o : oid) : view :=
  match o with
  | 9 => Sample.a_view "Headless" DjangoVueComponent [] [] (Ok headless_content)
  | 10 => Sample.a_view "Bodyless" DjangoVueComponent [] [] (Ok bodyless_content)
  | 11 => Sample.a_view "ListPage" DjangoVueComponent
            [("item", 1)] [("/", 2)] (Ok Sample.item_content)
  | _ => Sample.objects o
  end.

(** The document of [Sample.hello_soup] after the library step. *)
Definition hello_with_libraries : soup :=
  match add_required_scripts (L := Sample.libraries) DjangoVueComponent
          Sample.hello_soup with
  | Ok s => s
  | Raise _ => []
  end.

End Further.

(** * Properties *)

(** ** Replacing delimiters *)

Section ReplaceFacts.

Import Py.

Lemma startswith_twice (a x : ascii) (y : string) :
  startswith (twice a) (String x y) = Ascii.eqb a x && starts a y.
Proof.
  destruct y as [|d y]; simpl.
  - reflexivity.
  - now rewrite andb_true_r.
Qed.

Lemma contains_twice_cons (a x : ascii) (y : string) :
  contains (twice a) (String x y)
  = (Ascii.eqb a x && starts a y) || contains (twice a) y.
Proof.
  change (contains (twice a) (String x y))
    with (startswith (twice a) (String x y) || contains (twice a) y).
  now rewrite startswith_twice.
Qed.

Lemma contains_twice_empty (a : ascii) : contains (twice a) EmptyString = false.
Proof. reflexivity. Qed.

(** A string without an occurrence of [old] is left as it is. *)
Lemma replace_absent (old new s : string) :
  contains old s = false -> replace old new s = s.
Proof.
  unfold replace.
  induction s as [|c s IH]; intros H.
  - reflexivity.
  - change (contains old (String c s))
      with (startswith old (String c s) || contains old s) in H.
    apply orb_false_iff in H. destruct H as [Hp Hc].
    cbn [replace_from]. rewrite Hp. f_equal. auto.
Qed.

(** The two shapes of one step of the scan for a doubled character. *)
Lemma replace_twice_hit (a b : ascii) (t : string) :
  replace (twice a) (twice b) (String a (String a t))
  = String b (String b (replace (twice a) (twice b) t)).
Proof.
  unfold replace. cbn [replace_from].
  rewrite startswith_twice. cbn [starts].
  rewrite Ascii.eqb_refl. reflexivity.
Qed.

Lemma replace_twice_miss (a b c : ascii) (s : string) :
  Ascii.eqb a c && starts a s = false ->
  replace (twice a) (twice b) (String c s)
  = String c (replace (twice a) (twice b) s).
Proof.
  intros H. unfold replace. cbn [replace_from].
  now rewrite startswith_twice, H.
Qed.

Lemma twice_cases (a c : ascii) (s : string) :
  (c = a /\ exists t, s = String a t) \/ Ascii.eqb a c && starts a s = false.
Proof.
  destruct (Ascii.eqb a c) eqn:E; [|now right].
  apply Ascii.eqb_eq in E. subst c.
  destruct s as [|d t]; [now right|].
  cbn [starts andb]. destruct (Ascii.eqb a d) eqn:E'; [|now right].
  apply Ascii.eqb_eq in E'. subst d. left. eauto.
Qed.

(** Induction on strings two characters at a time. *)
Lemma string_pair_ind (P : string -> Prop) :
  P EmptyString ->
  (forall c s, P s -> (forall d t, s = String d t -> P t) -> P (String c s)) ->
  forall s, P s.
Proof.
  intros H0 HS.
  assert (H : forall s, P s /\ (forall d t, s = String d t -> P t)).
  { induction s as [|c s [IH1 IH2]].
    - split; [exact H0 | discriminate].
    - split.
      + apply HS; assumption.
      + intros d t E. injection E as _ <-. exact IH1. }
  intros s. apply H.
Qed.

(** Replacing the doubled [p] by the doubled [q] keeps a string free of
    the doubled [a], as long as [q] is not [a]; the result starts with
    [a] only if the string did. *)
Lemma replace_twice_keeps (a p q : ascii) (s : string) :
  q <> a ->
  (contains (twice a) s = false ->
   contains (twice a) (replace (twice p) (twice q) s) = false)
  /\ (starts a (replace (twice p) (twice q) s) = true -> starts a s = true).
Proof.
  intros Hq.
  assert (Eq : Ascii.eqb a q = false).
  { apply Ascii.eqb_neq. congruence. }
  induction s as [|c s IH IH2] using string_pair_ind.
  - split; [reflexivity | discriminate].
  - destruct (twice_cases p c s) as [[-> [t ->]] | Hm].
    + rewrite replace_twice_hit. split.
      * intros H. rewrite !contains_twice_cons, Eq. cbn [andb orb].
        rewrite !contains_twice_cons in H.
        apply orb_false_iff in H. destruct H as [_ H].
        apply orb_false_iff in H. destruct H as [_ H].
        destruct (IH2 p t eq_refl) as [K _]. auto.
      * cbn [starts]. rewrite Eq. discriminate.
    + rewrite (replace_twice_miss _ _ _ _ Hm). destruct IH as [IHc IHs]. split.
      * intros H. rewrite contains_twice_cons in *.
        apply orb_false_iff in H. destruct H as [H1 H2].
        rewrite (IHc H2), orb_false_r.
        destruct (Ascii.eqb a c); [|reflexivity]. cbn [andb] in *.
        destruct (starts a (replace (twice p) (twice q) s)) eqn:E; [|reflexivity].
        rewrite (IHs eq_refl) in H1. discriminate.
      * cbn [starts]. auto.
Qed.

(** After the doubled [a] has been replaced by the doubled [b], no
    doubled [a] is left. *)
Lemma replace_twice_removes (a b : ascii) (s : string) :
  b <> a ->
  contains (twice a) (replace (twice a) (twice b) s) = false
  /\ (starts a (replace (twice a) (twice b) s) = true -> starts a s = true).
Proof.
  intros Hb.
  assert (Eb : Ascii.eqb a b = false).
  { apply Ascii.eqb_neq. congruence. }
  induction s as [|c s IH IH2] using string_pair_ind.
  - split; [reflexivity | discriminate].
  - destruct (twice_cases a c s) as [[-> [t ->]] | Hm].
    + rewrite replace_twice_hit. split.
      * rewrite !contains_twice_cons, Eb. cbn [andb orb].
        apply (IH2 a t eq_refl).
      * cbn [starts]. rewrite Eb. discriminate.
    + rewrite (replace_twice_miss _ _ _ _ Hm). destruct IH as [IHc IHs]. split.
      * rewrite contains_twice_cons, IHc, orb_false_r.
        destruct (Ascii.eqb a c) eqn:Ec; [|reflexivity]. cbn [andb] in *.
        destruct (starts a (replace (twice a) (twice b) s)) eqn:E; [|reflexivity].
        rewrite (IHs eq_refl) in Hm. discriminate.
      * cbn [starts]. auto.
Qed.

(** The converted text holds neither delimiter. *)
Lemma replace_delimiters_clean (s : string) :
  contains "[[" (DjangoVue.replace_delimiters s) = false
  /\ contains "]]" (DjangoVue.replace_delimiters s) = false.
Proof.
  unfold DjangoVue.replace_delimiters. split.
  - apply (replace_twice_keeps "[" "]" "}"); [discriminate|].
    apply (replace_twice_removes "[" "{"). discriminate.
  - apply (replace_twice_removes "]" "}"). discriminate.
Qed.

End ReplaceFacts.

(** C4.  The delimiter replacement, [[[] to [{{] and then []]] to [}}], is
    idempotent: applied to its own result it changes nothing, and it leaves
    any text without [[[] and []]] as it is. *)
Theorem replace_delimiters_idempotent :
  (forall s : string,
     DjangoVue.replace_delimiters (DjangoVue.replace_delimiters s)
     = DjangoVue.replace_delimiters s)
  /\ (forall s : string,
        Py.contains "[[" s = false -> Py.contains "]]" s = false ->
        DjangoVue.replace_delimiters s = s).
Proof.
  assert (K : forall s : string,
             Py.contains "[[" s = false -> Py.contains "]]" s = false ->
             DjangoVue.replace_delimiters s = s).
  { intros s H1 H2. unfold DjangoVue.replace_delimiters.
    rewrite (replace_absent "[[" "{{" s H1). now apply replace_absent. }
  split; [|exact K].
  intros s. destruct (replace_delimiters_clean s). now apply K.
Qed.

(** ** Component names *)

(** Under [re.IGNORECASE] as a flag the capitalized suffix would go. *)
Lemma sub_component_view_ignorecase :
  Re.camelize (Re.sub_component_view 0 Re.IGNORECASE "FooComponent") = "Foo"
  /\ Re.camelize (Re.sub_component_view 0 Re.IGNORECASE "BarView") = "Bar".
Proof. split; reflexivity. Qed.

(** A suffix in lower case is removed as it is written in the pattern. *)
Lemma get_vue_name_lowercase_suffix :
  DjangoVue.get_vue_name (Sample.objects 3) = "Item".
Proof. reflexivity. Qed.

(** C3.  [get_vue_name] evaluated on the classes [FooComponent] and
    [BarView]: the flag reaches [re.sub] as its [count], the match is
    case-sensitive, and the capitalized suffix stays. *)
Theorem get_vue_name_capitalized_suffix :
  DjangoVue.get_vue_name Sample.foo_component = "FooComponent"
  /\ DjangoVue.get_vue_name Sample.bar_view = "BarView".
Proof. split; reflexivity. Qed.

(** ** Component definitions *)

Section DefinitionFacts.

Import Py Bs4 DjangoVue.
Context {L : Libraries}.

Lemma get_vue_definition_truthy (self : oid) (request : HttpRequest)
    (t : string) (st : store) :
  truthy t = true ->
  base (st self) <> SingleFileVueComponent ->
  get_vue_definition self request (Some t) st
  = (Ok (component_definition (st self) t), st).
Proof.
  intros Ht Hb. unfold get_vue_definition, bind, read, ret.
  destruct (base (st self)); try congruence; now rewrite Ht.
Qed.

End DefinitionFacts.

(** ** The tree operations *)

Section TreeFacts.

Import Bs4.

Lemma node_induction (P : node -> Prop) :
  (forall s, P (NavigableString s)) ->
  (forall t a cs, Forall P cs -> P (Tag t a cs)) ->
  forall n, P n.
Proof.
  intros Hs Ht. fix IH 1. intros [s | t a cs].
  - apply Hs.
  - apply Ht. induction cs as [|c cs IHcs]; constructor.
    + apply IH.
    + exact IHcs.
Qed.

Lemma find_all_app (name : string) (l1 l2 : list node) :
  find_all name (l1 ++ l2) = find_all name l1 ++ find_all name l2.
Proof.
  unfold find_all, descendants. now rewrite flat_map_app, filter_app.
Qed.

Lemma find_all_cons (name : string) (x : node) (l : list node) :
  find_all name (x :: l) = find_all name [x] ++ find_all name l.
Proof. apply (find_all_app name [x] l). Qed.

Lemma find_all_text (name s : string) :
  find_all name [NavigableString s] = [].
Proof. reflexivity. Qed.

Lemma find_all_tag (name t : string) (a : list (string * string)) (cs : list node) :
  find_all name [Tag t a cs]
  = (if String.eqb t name then [Tag t a cs] else []) ++ find_all name cs.
Proof.
  unfold find_all, descendants. cbn [flat_map self_and_descendants].
  rewrite app_nil_r. cbn [filter is_tag].
  destruct (String.eqb t name); reflexivity.
Qed.

Lemma find_cons (name : string) (x : node) (l : list node) :
  find name (x :: l)
  = match find name [x] with
    | Some h => Some h
    | None => find name l
    end.
Proof.
  unfold find. rewrite find_all_cons.
  destruct (find_all name [x]); reflexivity.
Qed.

Lemma find_tag (name t : string) (a : list (string * string)) (cs : list node) :
  find name [Tag t a cs]
  = if String.eqb t name then Some (Tag t a cs) else find name cs.
Proof.
  unfold find. rewrite find_all_tag.
  destruct (String.eqb t name); reflexivity.
Qed.

Lemma find_is_tag (name : string) (l : list node) (h : node) :
  find name l = Some h -> is_tag name h = true.
Proof.
  unfold find, find_all. intros H.
  destruct (filter (is_tag name) (descendants l)) as [|x r] eqn:E; [discriminate|].
  injection H as ->.
  assert (K : In h (filter (is_tag name) (descendants l))) by (rewrite E; now left).
  apply filter_In in K. apply K.
Qed.

Lemma strip_cons (name : string) (x : node) (l : list node) :
  strip name (x :: l) = strip_node name x ++ strip name l.
Proof. reflexivity. Qed.

Lemma strip_node_tag (name t : string) (a : list (string * string)) (cs : list node) :
  strip_node name (Tag t a cs)
  = if String.eqb t name then [] else [Tag t a (strip name cs)].
Proof. reflexivity. Qed.

(** Taking elements out of a tree brings no element into it. *)
Lemma find_all_strip_node (name name' : string) (n : node) :
  find_all name [n] = [] -> find_all name (strip_node name' n) = [].
Proof.
  induction n as [s | t a cs IH] using node_induction; intros H.
  - exact H.
  - rewrite strip_node_tag. destruct (String.eqb t name'); [reflexivity|].
    rewrite find_all_tag in *. apply app_eq_nil in H. destruct H as [H1 H2].
    destruct (String.eqb t name); [discriminate|]. cbn [app].
    clear H1. induction IH as [|c cs Hc _ IHcs]; [reflexivity|].
    rewrite find_all_cons in H2. apply app_eq_nil in H2. destruct H2 as [H2 H3].
    rewrite strip_cons, find_all_app, (Hc H2), (IHcs H3). reflexivity.
Qed.

Lemma find_all_strip (name name' : string) (l : list node) :
  find_all name l = [] -> find_all name (strip name' l) = [].
Proof.
  induction l as [|x l IH]; intros H; [reflexivity|].
  rewrite find_all_cons in H. apply app_eq_nil in H. destruct H as [H1 H2].
  rewrite strip_cons, find_all_app, (find_all_strip_node _ _ _ H1), (IH H2).
  reflexivity.
Qed.

(** Once the elements called [name] are taken out, none is left, at any
    depth. *)
Lemma find_all_strip_same_node (name : string) (n : node) :
  find_all name (strip_node name n) = [].
Proof.
  induction n as [s | t a cs IH] using node_induction.
  - reflexivity.
  - rewrite strip_node_tag. destruct (String.eqb t name) eqn:E; [reflexivity|].
    rewrite find_all_tag, E. cbn [app].
    induction IH as [|c cs Hc _ IHcs]; [reflexivity|].
    now rewrite strip_cons, find_all_app, Hc, IHcs.
Qed.

Lemma find_all_strip_same (name : string) (l : list node) :
  find_all name (strip name l) = [].
Proof.
  induction l as [|x l IH]; [reflexivity|].
  now rewrite strip_cons, find_all_app, find_all_strip_same_node, IH.
Qed.

(** A tree without such an element is left as it is. *)
Lemma strip_absent_node (name : string) (n : node) :
  find_all name [n] = [] -> strip_node name n = [n].
Proof.
  induction n as [s | t a cs IH] using node_induction; intros H.
  - reflexivity.
  - rewrite strip_node_tag. rewrite find_all_tag in H.
    apply app_eq_nil in H. destruct H as [H1 H2].
    destruct (String.eqb t name); [discriminate|].
    do 2 f_equal. clear H1.
    induction IH as [|c cs Hc _ IHcs]; [reflexivity|].
    rewrite find_all_cons in H2. apply app_eq_nil in H2. destruct H2 as [H2 H3].
    now rewrite strip_cons, (Hc H2), (IHcs H3).
Qed.

Lemma strip_absent (name : string) (l : list node) :
  find_all name l = [] -> strip name l = l.
Proof.
  induction l as [|x l IH]; intros H; [reflexivity|].
  rewrite find_all_cons in H. apply app_eq_nil in H. destruct H as [H1 H2].
  now rewrite strip_cons, (strip_absent_node _ _ H1), (IH H2).
Qed.

(** In a parsed document a style or a script element holds text only, so
    no match lies below another: the extracted elements are then the found
    ones, as they were. *)
Lemma extract_all_flat (name : string) (l : list node) :
  (forall e, In e (find_all name l) -> find_all name (tag_contents e) = []) ->
  fst (extract_all name l) = find_all name l.
Proof.
  intros H. cbn [extract_all fst].
  rewrite <- (map_id (find_all name l)) at 2.
  apply map_ext_in. intros e He. specialize (H e He).
  destruct e as [s | t a cs]; [reflexivity|].
  cbn [prune tag_contents] in *. now rewrite (strip_absent name cs H).
Qed.

End TreeFacts.

(** ** The template of a view *)

Section TemplateFacts.

Import Py Bs4 DjangoVue.
Context {L : Libraries}.

(** The object that [get_vue_template] reads back after the assignment to
    [self.request]. *)
Lemma set_request_self (self : oid) (request : HttpRequest) (st : store) :
  snd (set_request self request st) self = with_request request (st self).
Proof. cbn. now rewrite Nat.eqb_refl. Qed.

Lemma set_request_other (self o : oid) (request : HttpRequest) (st : store) :
  o <> self -> snd (set_request self request st) o = st o.
Proof.
  intros H. cbn. apply Nat.eqb_neq in H. now rewrite H.
Qed.

(** [get_vue_template], step by step, on a view that is not a single-file
    component. *)
Lemma get_vue_template_unfold (self : oid) (request : HttpRequest) (kw : kwargs)
    (st : store) :
  base (st self) <> SingleFileVueComponent ->
  fst (get_vue_template self request kw st)
  = result_bind (render (st self) (Some request) kw) (fun content =>
    result_bind (BeautifulSoup content (parser_of (base (st self)))) (fun soup =>
    result_bind (find_body soup) (fun body =>
    Ok (replace_delimiters
          (renderContents (strip "script" (strip "style" (tag_contents body))))))))
  /\ snd (get_vue_template self request kw st) = snd (set_request self request st).
Proof.
  intros Hb. unfold get_vue_template, bind, read, lift, ret.
  cbn [set_request]. rewrite Nat.eqb_refl.
  cbn [with_request base render current_request DjangoVue.request].
  destruct (render (st self) (Some request) kw) as [content|e]; [|now split].
  cbn [result_bind].
  destruct (base (st self)); try congruence;
    (destruct (BeautifulSoup content _) as [soup|e]; [|now split];
     cbn [result_bind];
     destruct (find_body soup) as [body|e]; [|now split];
     now split).
Qed.

End TemplateFacts.

(** C2.  When the document rendered for a view has a body,
    [get_vue_template] returns the serialized children of the body once
    every style element and every script element has been taken out, with
    [[[] and []]] rewritten to [{{] and [}}]; no style and no script element
    is left, at any depth, in what is serialized. *)
Theorem get_vue_template_strips
    {L : DjangoVue.Libraries} (self : DjangoVue.oid)
    (request : DjangoVue.HttpRequest) (kw : DjangoVue.kwargs)
    (st : DjangoVue.store) (content : string) (soup : Bs4.soup) (body : Bs4.node) :
  DjangoVue.base (st self) <> DjangoVue.SingleFileVueComponent ->
  DjangoVue.render (st self) (Some request) kw = DjangoVue.Ok content ->
  DjangoVue.BeautifulSoup content (DjangoVue.parser_of (DjangoVue.base (st self)))
  = DjangoVue.Ok soup ->
  Bs4.find "body" soup = Some body ->
  let kept := Bs4.strip "script" (Bs4.strip "style" (Bs4.tag_contents body)) in
  fst (DjangoVue.get_vue_template self request kw st)
  = DjangoVue.Ok
      (Py.replace "]]" "}}" (Py.replace "[[" "{{" (DjangoVue.renderContents kept)))
  /\ Bs4.find_all "style" kept = []
  /\ Bs4.find_all "script" kept = [].
Proof.
  intros Hb Hr Hp Hf kept. split; [|split].
  - destruct (get_vue_template_unfold self request kw st Hb) as [E _].
    rewrite E, Hr. cbn [DjangoVue.result_bind]. rewrite Hp.
    cbn [DjangoVue.result_bind]. unfold DjangoVue.find_body. rewrite Hf.
    reflexivity.
  - apply find_all_strip, find_all_strip_same.
  - apply find_all_strip_same.
Qed.

Lemma get_vue_template_strips_witness :
  fst (DjangoVue.get_vue_template (L := Sample.libraries)
         0 Sample.a_request [] Sample.objects)
  = DjangoVue.Ok "<p>{{ message }}</p>"
  /\ Bs4.find_all "style" [Bs4.Tag "p" [] [Bs4.NavigableString "[[ message ]]"]] = []
  /\ Bs4.find_all "script" [Bs4.Tag "p" [] [Bs4.NavigableString "[[ message ]]"]] = [].
Proof.
  apply (get_vue_template_strips (L := Sample.libraries)
           0 Sample.a_request [] Sample.objects Sample.hello_content
           Sample.hello_soup
           (Bs4.Tag "body" []
              [ Bs4.Tag "p" [] [Bs4.NavigableString "[[ message ]]"];
                Bs4.Tag "style" [] [Bs4.NavigableString "p { color: red }"];
                Bs4.Tag "script" [("src", "https://unpkg.com/axios")] [] ])).
  - discriminate.
  - reflexivity.
  - reflexivity.
  - reflexivity.
Defined.

(** ** Changing the first element of a name in place *)

Section UpdateFacts.

Import Bs4.

Lemma update_node_tag (name : string) (f : node -> node) (t : string)
    (a : list (string * string)) (cs : list node) :
  update_node name f (Tag t a cs)
  = if String.eqb t name then Some (f (Tag t a cs))
    else match update_first name f cs with
         | Some cs' => Some (Tag t a cs')
         | None => None
         end.
Proof.
  cbn [update_node]. destruct (String.eqb t name); [reflexivity|].
  match goal with
  | |- match ?X with _ => _ end = _ =>
      assert (E : X = update_first name f cs)
  end.
  { induction cs as [|c cs IH]; [reflexivity|].
    cbn [update_first]. rewrite <- IH. reflexivity. }
  now rewrite E.
Qed.

Lemma find_single_tag (name : string) (n : node) :
  is_tag name n = true -> find name [n] = Some n.
Proof.
  destruct n as [s | t a cs]; [discriminate|]. cbn [is_tag]. intros H.
  now rewrite find_tag, H.
Qed.

(** [update_first] succeeds exactly when [find] does, and the element it
    changes is the one that [find] returns. *)
Lemma update_node_find (name : string) (f : node -> node) (n : node) :
  match find name [n] with
  | None => update_node name f n = None
  | Some h =>
      exists n', update_node name f n = Some n'
                 /\ (is_tag name (f h) = true -> find name [n'] = Some (f h))
  end.
Proof.
  induction n as [s | t a cs IH] using node_induction.
  - reflexivity.
  - rewrite find_tag, update_node_tag.
    destruct (String.eqb t name) eqn:E.
    + eexists. split; [reflexivity|]. apply find_single_tag.
    + assert (K : match find name cs with
                  | None => update_first name f cs = None
                  | Some h =>
                      exists cs', update_first name f cs = Some cs'
                                  /\ (is_tag name (f h) = true ->
                                      find name cs' = Some (f h))
                  end).
      { induction IH as [|c cs Hc _ IHcs]; [reflexivity|].
        rewrite find_cons. cbn [update_first].
        destruct (find name [c]) as [h|] eqn:Ec.
        - destruct Hc as [c' [-> Hc']]. eexists. split; [reflexivity|].
          intros Hf. now rewrite find_cons, (Hc' Hf).
        - rewrite Hc. destruct (find name cs) as [h|].
          + destruct IHcs as [cs' [-> Hcs']]. eexists. split; [reflexivity|].
            intros Hf. now rewrite find_cons, Ec, (Hcs' Hf).
          + now rewrite IHcs. }
      destruct (find name cs) as [h|].
      * destruct K as [cs' [-> Hcs']]. eexists. split; [reflexivity|].
        intros Hf. now rewrite find_tag, E, (Hcs' Hf).
      * now rewrite K.
Qed.

Lemma update_first_find (name : string) (f : node -> node) (l : list node) :
  match find name l with
  | None => update_first name f l = None
  | Some h =>
      exists l', update_first name f l = Some l'
                 /\ (is_tag name (f h) = true -> find name l' = Some (f h))
  end.
Proof.
  induction l as [|x l IH]; [reflexivity|].
  rewrite find_cons. cbn [update_first].
  pose proof (update_node_find name f x) as Hx.
  destruct (find name [x]) as [h|] eqn:Ex.
  - destruct Hx as [x' [-> Hx']]. eexists. split; [reflexivity|].
    intros Hf. now rewrite find_cons, (Hx' Hf).
  - rewrite Hx. destruct (find name l) as [h|].
    + destruct IH as [l' [-> Hl']]. eexists. split; [reflexivity|].
      intros Hf. now rewrite find_cons, Ex, (Hl' Hf).
    + now rewrite IH.
Qed.

Lemma update_first_none (name : string) (f : node -> node) (l : list node) :
  find name l = None -> update_first name f l = None.
Proof.
  intros H. pose proof (update_first_find name f l) as K. now rewrite H in K.
Qed.

Lemma update_first_some (name : string) (f : node -> node) (l : list node) (h : node) :
  find name l = Some h -> exists l', update_first name f l = Some l'.
Proof.
  intros H. pose proof (update_first_find name f l) as K. rewrite H in K.
  destruct K as [l' [K _]]. eauto.
Qed.

Lemma find_update_first (name : string) (f : node -> node) (l l' : list node)
    (h : node) :
  is_tag name (f h) = true ->
  find name l = Some h ->
  update_first name f l = Some l' ->
  find name l' = Some (f h).
Proof.
  intros Hf H U. pose proof (update_first_find name f l) as K. rewrite H in K.
  destruct K as [l'' [K1 K2]]. rewrite U in K1. injection K1 as <-. auto.
Qed.

(** Whether the element is found does not depend on the change. *)
Lemma update_node_none (name : string) (f g : node -> node) (n : node) :
  update_node name f n = None -> update_node name g n = None.
Proof.
  intros H. pose proof (update_node_find name f n) as Kf.
  pose proof (update_node_find name g n) as Kg.
  destruct (find name [n]) as [h|]; [|exact Kg].
  destruct Kf as [n' [Kf _]]. congruence.
Qed.

Lemma update_node_ext (name : string) (f g : node -> node) (n : node) :
  (forall m, f m = g m) -> update_node name f n = update_node name g n.
Proof.
  intros Hfg. induction n as [s | t a cs IH] using node_induction.
  - reflexivity.
  - rewrite !update_node_tag, Hfg.
    destruct (String.eqb t name); [reflexivity|].
    assert (E : update_first name f cs = update_first name g cs).
    { induction IH as [|c cs Hc _ IHcs]; [reflexivity|].
      cbn [update_first]. now rewrite Hc, IHcs. }
    now rewrite E.
Qed.

Lemma update_first_ext (name : string) (f g : node -> node) (l : list node) :
  (forall m, f m = g m) -> update_first name f l = update_first name g l.
Proof.
  intros Hfg. induction l as [|x l IH]; [reflexivity|].
  cbn [update_first]. now rewrite (update_node_ext name f g x Hfg), IH.
Qed.

(** Two changes in a row are one change. *)
Lemma update_node_twice (name : string) (f g : node -> node) (n n' : node) :
  (forall m, is_tag name m = true -> is_tag name (f m) = true) ->
  update_node name f n = Some n' ->
  update_node name g n' = update_node name (fun m => g (f m)) n.
Proof.
  intros Hf. revert n'.
  induction n as [s | t a cs IH] using node_induction; intros n' H.
  - discriminate.
  - rewrite update_node_tag in *.
    destruct (String.eqb t name) eqn:E.
    + injection H as <-.
      assert (K : is_tag name (f (Tag t a cs)) = true) by (apply Hf; exact E).
      destruct (f (Tag t a cs)) as [s | t' a' cs']; [discriminate|].
      cbn [is_tag] in K. now rewrite update_node_tag, K.
    + destruct (update_first name f cs) as [cs'|] eqn:U; [|discriminate].
      injection H as <-. rewrite update_node_tag, E.
      assert (K : update_first name g cs'
                  = update_first name (fun m => g (f m)) cs).
      { clear E. revert cs' U.
        induction IH as [|c cs Hc _ IHcs]; intros cs' U; [discriminate|].
        cbn [update_first] in *.
        destruct (update_node name f c) as [c'|] eqn:Uc.
        - injection U as <-. cbn [update_first]. rewrite (Hc c' eq_refl).
          destruct (update_node name (fun m => g (f m)) c) eqn:Ugf; [reflexivity|].
          apply (update_node_none name _ f) in Ugf. congruence.
        - destruct (update_first name f cs) as [r'|] eqn:Ur; [|discriminate].
          injection U as <-. cbn [update_first].
          rewrite (update_node_none name f g c Uc).
          rewrite (update_node_none name f (fun m => g (f m)) c Uc).
          now rewrite (IHcs r' eq_refl). }
      now rewrite K.
Qed.

Lemma update_first_twice (name : string) (f g : node -> node) (l l' : list node) :
  (forall m, is_tag name m = true -> is_tag name (f m) = true) ->
  update_first name f l = Some l' ->
  update_first name g l' = update_first name (fun m => g (f m)) l.
Proof.
  intros Hf. revert l'. induction l as [|x l IH]; intros l' U; [discriminate|].
  cbn [update_first] in *.
  destruct (update_node name f x) as [x'|] eqn:Ux.
  - injection U as <-. cbn [update_first].
    rewrite (update_node_twice name f g x x' Hf Ux).
    destruct (update_node name (fun m => g (f m)) x) eqn:Ugf; [reflexivity|].
    apply (update_node_none name _ f) in Ugf. congruence.
  - destruct (update_first name f l) as [r'|] eqn:Ur; [|discriminate].
    injection U as <-. cbn [update_first].
    rewrite (update_node_none name f g x Ux).
    rewrite (update_node_none name f (fun m => g (f m)) x Ux).
    now rewrite (IH r' eq_refl).
Qed.

(** A change that changes nothing. *)
Lemma update_node_id (name : string) (f : node -> node) (n n' : node) :
  (forall m, f m = m) -> update_node name f n = Some n' -> n' = n.
Proof.
  intros Hf. revert n'.
  induction n as [s | t a cs IH] using node_induction; intros n' H.
  - discriminate.
  - rewrite update_node_tag in H. destruct (String.eqb t name).
    + injection H as <-. apply Hf.
    + destruct (update_first name f cs) as [cs'|] eqn:U; [|discriminate].
      injection H as <-. f_equal.
      revert cs' U. induction IH as [|c cs Hc _ IHcs]; intros cs' U; [discriminate|].
      cbn [update_first] in U.
      destruct (update_node name f c) as [c'|] eqn:Uc.
      * injection U as <-. now rewrite (Hc c' eq_refl).
      * destruct (update_first name f cs) as [r'|] eqn:Ur; [|discriminate].
        injection U as <-. now rewrite (IHcs r' eq_refl).
Qed.

Lemma update_first_id (name : string) (f : node -> node) (l l' : list node) :
  (forall m, f m = m) -> update_first name f l = Some l' -> l' = l.
Proof.
  intros Hf. revert l'. induction l as [|x l IH]; intros l' U; [discriminate|].
  cbn [update_first] in U.
  destruct (update_node name f x) as [x'|] eqn:Ux.
  - injection U as <-. now rewrite (update_node_id name f x x' Hf Ux).
  - destruct (update_first name f l) as [r'|] eqn:Ur; [|discriminate].
    injection U as <-. now rewrite (IH r' eq_refl).
Qed.

Lemma descendants_cons (x : node) (l : list node) :
  descendants (x :: l) = self_and_descendants x ++ descendants l.
Proof. reflexivity. Qed.

Lemma descendants_app (l1 l2 : list node) :
  descendants (l1 ++ l2) = descendants l1 ++ descendants l2.
Proof. apply flat_map_app. Qed.

(** A test that looks at the name and the attributes of an element only
    holds somewhere in the extended document exactly when it held somewhere
    before or holds in what was added. *)
Lemma existsb_update_node (p : node -> bool) (name : string) (new : list node)
    (n n' : node) :
  (forall t a cs cs', p (Tag t a cs) = p (Tag t a cs')) ->
  update_node name (extend new) n = Some n' ->
  existsb p (self_and_descendants n')
  = existsb p (self_and_descendants n) || existsb p (descendants new).
Proof.
  intros Hp. revert n'.
  induction n as [s | t a cs IH] using node_induction; intros n' H.
  - discriminate.
  - rewrite update_node_tag in H. destruct (String.eqb t name).
    + injection H as <-. cbn [extend self_and_descendants existsb].
      fold (descendants (cs ++ new)). fold (descendants cs).
      now rewrite descendants_app, existsb_app, (Hp t a (cs ++ new) cs), orb_assoc.
    + destruct (update_first name (extend new) cs) as [cs'|] eqn:U; [|discriminate].
      injection H as <-. cbn [self_and_descendants existsb].
      fold (descendants cs'). fold (descendants cs).
      rewrite (Hp t a cs' cs), <- orb_assoc. f_equal.
      revert cs' U. induction IH as [|c cs Hc _ IHcs]; intros cs' U; [discriminate|].
      cbn [update_first] in U.
      destruct (update_node name (extend new) c) as [c'|] eqn:Uc.
      * injection U as <-. rewrite !descendants_cons, !existsb_app, (Hc c' eq_refl).
        rewrite <- !orb_assoc. f_equal. apply orb_comm.
      * destruct (update_first name (extend new) cs) as [r'|] eqn:Ur; [|discriminate].
        injection U as <-. rewrite !descendants_cons, !existsb_app, (IHcs r' eq_refl).
        now rewrite orb_assoc.
Qed.

Lemma existsb_update_first (p : node -> bool) (name : string) (new : list node)
    (l l' : list node) :
  (forall t a cs cs', p (Tag t a cs) = p (Tag t a cs')) ->
  update_first name (extend new) l = Some l' ->
  existsb p (descendants l')
  = existsb p (descendants l) || existsb p (descendants new).
Proof.
  intros Hp. revert l'. induction l as [|x l IH]; intros l' U; [discriminate|].
  cbn [update_first] in U.
  destruct (update_node name (extend new) x) as [x'|] eqn:Ux.
  - injection U as <-.
    rewrite !descendants_cons, !existsb_app,
      (existsb_update_node p name new x x' Hp Ux).
    rewrite <- !orb_assoc. f_equal. apply orb_comm.
  - destruct (update_first name (extend new) l) as [r'|] eqn:Ur; [|discriminate].
    injection U as <-. rewrite !descendants_cons, !existsb_app, (IH r' eq_refl).
    now rewrite orb_assoc.
Qed.

Lemma extend_is_tag (name : string) (cs : list node) (n : node) :
  is_tag name (extend cs n) = is_tag name n.
Proof. destruct n; reflexivity. Qed.

Lemma set_contents_is_tag (name : string) (cs : list node) (n : node) :
  is_tag name (set_contents cs n) = is_tag name n.
Proof. destruct n; reflexivity. Qed.

Lemma extend_extend (cs1 cs2 : list node) (n : node) :
  extend cs2 (extend cs1 n) = extend (cs1 ++ cs2) n.
Proof. destruct n; cbn [extend]; [reflexivity|]. now rewrite app_assoc. Qed.

Lemma extend_nil (n : node) : extend [] n = n.
Proof. destruct n; cbn [extend]; [reflexivity|]. now rewrite app_nil_r. Qed.

Lemma append_extend (child n : node) : append child n = extend [child] n.
Proof. destruct n; reflexivity. Qed.

End UpdateFacts.

(** ** The libraries in the head *)

Section LibraryFacts.

Import Py Bs4 DjangoVue.
Context {L : Libraries}.

Lemma filter_filter_existsb {A : Type} (q r : A -> bool) (l : list A) :
  (0 <? List.length (filter q (filter r l)))%nat = existsb (fun n => r n && q n) l.
Proof.
  induction l as [|x l IH]; [reflexivity|].
  cbn [filter existsb]. destruct (r x); cbn [andb orb]; [|exact IH].
  cbn [filter]. destruct (q x); cbn [orb]; [reflexivity | exact IH].
Qed.

Lemma script_present_existsb (name : string) (s : soup) :
  script_present name s = existsb (is_script_for name) (descendants s).
Proof. apply filter_filter_existsb. Qed.

Lemma is_script_for_shallow (name t : string) (a : list (string * string))
    (cs cs' : list node) :
  is_script_for name (Tag t a cs) = is_script_for name (Tag t a cs').
Proof. reflexivity. Qed.

Lemma existsb_script_tags (name : string) (srcs : list string) :
  existsb (is_script_for name) (descendants (map script_tag srcs))
  = existsb (fun u => src_mentions name (Some u)) srcs.
Proof.
  induction srcs as [|u srcs IH]; [reflexivity|].
  cbn [map]. rewrite descendants_cons, existsb_app, IH.
  change (existsb (is_script_for name) (self_and_descendants (script_tag u)))
    with (src_mentions name (Some u) || false).
  now rewrite orb_false_r.
Qed.

(** Library presence is a substring test on the [src] of the script
    elements of the whole document. *)
Lemma script_present_iff (name : string) (s : soup) :
  script_present name s = true
  <-> exists n u, In n (descendants s) /\ is_tag "script" n = true
                  /\ get_attr "src" n = Some u /\ truthy u = true
                  /\ contains name u = true.
Proof.
  rewrite script_present_existsb, existsb_exists. unfold is_script_for. split.
  - intros [n [Hn H]]. apply andb_true_iff in H. destruct H as [Ht Hs].
    unfold src_mentions in Hs. destruct (get_attr "src" n) as [u|] eqn:E;
      [|discriminate].
    apply andb_true_iff in Hs. destruct Hs. exists n, u. auto.
  - intros [n [u [Hn [Ht [Hu [H1 H2]]]]]]. exists n. split; [exact Hn|].
    rewrite Ht, Hu. cbn [andb src_mentions]. now rewrite H1, H2.
Qed.

Lemma update_first_none_any (name : string) (f g : node -> node) (l : list node) :
  update_first name f l = None -> update_first name g l = None.
Proof.
  intros H. pose proof (update_first_find name f l) as Kf.
  destruct (find name l) as [h|] eqn:E.
  - destruct Kf as [l' [Kf _]]. congruence.
  - now apply update_first_none.
Qed.

Lemma head_append_extend (tag : node) (s : soup) :
  head_append tag s
  = match update_first "head" (extend [tag]) s with
    | Some s' => Ok s'
    | None => Raise (AttributeError "append")
    end.
Proof.
  unfold head_append.
  now rewrite (update_first_ext "head" (append tag) (extend [tag]) s (append_extend tag)).
Qed.

Lemma fold_raise {A B : Type} (f : B -> A -> result A) (l : list B) (e : exn) :
  fold_left (fun acc x => result_bind acc (f x)) l (Raise e) = Raise e.
Proof. induction l as [|x l IH]; [reflexivity | exact IH]. Qed.

Lemma in_turn_cons (add : string -> string -> soup -> result soup)
    (lib : string * string) (r : list (string * string)) (s : soup) :
  in_turn add (lib :: r) s = result_bind (add (fst lib) (snd lib) s) (in_turn add r).
Proof.
  unfold in_turn. cbn [fold_left result_bind].
  destruct (add (fst lib) (snd lib) s) as [s'|e]; [reflexivity|].
  apply (fold_raise (fun lib => add (fst lib) (snd lib))).
Qed.

Lemma missing_cons (name url : string) (r : list (string * string)) (s : soup) :
  missing ((name, url) :: r) s
  = if script_present name s then missing r s else url :: missing r s.
Proof.
  unfold missing. cbn [filter fst]. now destruct (script_present name s).
Qed.

(** The calls of [views.py], on a document with a head: the sources of the
    libraries that the document did not mention are appended to the head,
    in order, and nothing else changes. *)
Lemma in_turn_add_unless_present (libs : list (string * string)) :
  forall (s0 : soup) (acc : list string) (s : soup),
    update_first "head" (extend (map script_tag acc)) s0 = Some s ->
    (forall lib, In lib libs ->
                 existsb (fun u => src_mentions (fst lib) (Some u)) acc = false) ->
    independent libs = true ->
    exists s',
      in_turn add_unless_present libs s = Ok s'
      /\ update_first "head" (extend (map script_tag (acc ++ missing libs s0))) s0
         = Some s'.
Proof.
  induction libs as [|[name url] r IH]; intros s0 acc s U Hacc Hind.
  - exists s. split; [reflexivity|]. unfold missing. cbn [filter map].
    now rewrite app_nil_r.
  - cbn [independent] in Hind. apply andb_true_iff in Hind.
    destruct Hind as [Hlater Hind].
    rewrite in_turn_cons. cbn [fst snd]. unfold add_unless_present at 1.
    assert (P : script_present name s = script_present name s0).
    { rewrite !script_present_existsb.
      rewrite (existsb_update_first _ "head" _ s0 s (is_script_for_shallow name) U).
      rewrite existsb_script_tags.
      pose proof (Hacc (name, url) (or_introl eq_refl)) as Ha. cbn [fst] in Ha.
      rewrite Ha. apply orb_false_r. }
    rewrite P, missing_cons.
    destruct (script_present name s0) eqn:E; cbn [result_bind].
    + apply (IH s0 acc s U); [|exact Hind].
      intros lib Hl. apply Hacc. now right.
    + rewrite head_append_extend.
      rewrite (update_first_twice "head" _ (extend [script_tag url]) s0 s
                 (fun m Hm => eq_trans (extend_is_tag "head" _ m) Hm) U).
      rewrite (update_first_ext "head" _
                 (extend (map script_tag (acc ++ [url]))) s0).
      2:{ intros m. rewrite extend_extend. now rewrite map_app. }
      destruct (update_first "head" (extend (map script_tag (acc ++ [url]))) s0)
        as [s1|] eqn:U1.
      2:{ apply (update_first_none_any "head" _ (extend (map script_tag acc))) in U1.
          congruence. }
      cbn [result_bind map].
      replace (acc ++ url :: missing r s0) with ((acc ++ [url]) ++ missing r s0)
        by (now rewrite <- app_assoc).
      apply (IH s0 (acc ++ [url]) s1 U1); [|exact Hind].
      intros lib Hl. rewrite existsb_app, (Hacc lib (or_intror Hl)).
      cbn [existsb orb]. rewrite orb_false_r.
      rewrite forallb_forall in Hlater. specialize (Hlater lib Hl).
      cbn [snd] in Hlater. now apply negb_true_iff in Hlater.
Qed.

Lemma view_libraries_independent : independent view_libraries = true.
Proof. reflexivity. Qed.

Lemma contains_truthy (name u : string) :
  truthy name = true -> contains name u = true -> truthy u = true.
Proof.
  destruct u as [|c u]; [|reflexivity].
  destruct name as [|d name]; [discriminate|]. cbn. discriminate.
Qed.

(** The calls of [mixins.py] find no element without raising, and append
    nothing. *)
Lemma filter_unbound_empty (l found : list node) :
  filter_raising (fun n => src_mentions_unbound (get_attr "src" n)) l = Ok found ->
  found = [].
Proof.
  revert found. induction l as [|x l IH]; intros found H.
  - now injection H as <-.
  - cbn [filter_raising] in H. unfold src_mentions_unbound at 1 in H.
    destruct (get_attr "src" x) as [u|]; [destruct (truthy u); [discriminate|]|];
      cbn [result_bind] in H;
      (destruct (filter_raising _ l) as [r'|e]; [|discriminate];
       cbn [result_bind] in H; injection H as <-; now apply IH).
Qed.

Lemma add_script_if_not_present_adds_nothing (identifier src : string) (s s' : soup) :
  add_script_if_not_present identifier src s = Ok s' -> s' = s.
Proof.
  unfold add_script_if_not_present.
  destruct (filter_raising _ (find_all "script" s)) as [found|e] eqn:E;
    [|discriminate].
  rewrite (filter_unbound_empty _ _ E). cbn [result_bind any_tag existsb].
  now intros [= <-].
Qed.

Lemma mixin_adds_nothing (s s' : soup) :
  add_required_scripts DjangoVueComponentMixin s = Ok s' -> s' = s.
Proof.
  cbn [add_required_scripts]. unfold mixin_libraries.
  assert (K : forall libs s s',
             in_turn add_script_if_not_present libs s = Ok s' -> s' = s).
  { induction libs as [|lib r IH]; intros t t' H.
    - now injection H as <-.
    - rewrite in_turn_cons in H.
      destruct (add_script_if_not_present (fst lib) (snd lib) t) as [t1|e] eqn:E;
        [|discriminate].
      apply add_script_if_not_present_adds_nothing in E. subst t1.
      now apply IH. }
  apply K.
Qed.

End LibraryFacts.

(** C1, as amended.  In the [DjangoVueComponent] variant, on a document
    with a head, the step succeeds and appends to the head, in the order
    vue, vue-router, vue3-sfc-loader, axios, django-vue, a script tag for
    each library whose name no script element of the document, in the head
    or elsewhere, has in its [src]; nothing else in the document changes.
    Afterwards every library whose source contains its name is mentioned by
    the [src] of a script element of the document. *)
Theorem add_required_scripts_views
    {L : DjangoVue.Libraries} (b : DjangoVue.base_class) (s : Bs4.soup)
    (h : Bs4.node) :
  b <> DjangoVue.DjangoVueComponentMixin ->
  Bs4.find "head" s = Some h ->
  let added :=
    map DjangoVue.script_tag (DjangoVue.missing DjangoVue.view_libraries s) in
  exists s' : Bs4.soup,
    DjangoVue.add_required_scripts b s = DjangoVue.Ok s'
    /\ Bs4.update_first "head" (Bs4.extend added) s = Some s'
    /\ Bs4.find "head" s' = Some (Bs4.extend added h)
    /\ (forall name url : string,
          In (name, url) DjangoVue.view_libraries ->
          Py.contains name url = true ->
          DjangoVue.script_present name s' = true).
Proof.
  intros Hb Hh added.
  assert (U0 : Bs4.update_first "head" (Bs4.extend (map DjangoVue.script_tag [])) s
               = Some s).
  { destruct (update_first_some "head" (Bs4.extend []) s h Hh) as [s1 U].
    cbn [map]. rewrite U.
    now rewrite (update_first_id "head" (Bs4.extend []) s s1 extend_nil U). }
  destruct (in_turn_add_unless_present DjangoVue.view_libraries s [] s U0)
    as [s' [R U]].
  { reflexivity. }
  { apply view_libraries_independent. }
  cbn [app] in U. fold added in U.
  exists s'. split; [|split; [exact U | split]].
  - destruct b; try congruence; exact R.
  - apply (find_update_first "head" (Bs4.extend added) s s' h); try assumption.
    rewrite extend_is_tag. apply (find_is_tag "head" s h Hh).
  - intros name url Hin Hc.
    assert (Hn : Py.truthy name = true).
    { cbn [DjangoVue.view_libraries In] in Hin.
      repeat (destruct Hin as [Hin|Hin];
              [injection Hin as <- <-; reflexivity|]).
      contradiction. }
    rewrite script_present_existsb.
    rewrite (existsb_update_first _ "head" added s s'
               (is_script_for_shallow name) U).
    rewrite <- script_present_existsb. unfold added.
    rewrite existsb_script_tags.
    destruct (DjangoVue.script_present name s) eqn:E; [reflexivity|].
    cbn [orb]. apply existsb_exists. exists url. split.
    + unfold DjangoVue.missing.
      apply (in_map snd _ (name, url)). apply filter_In. split; [exact Hin|].
      cbn [fst]. now rewrite E.
    + cbn [DjangoVue.src_mentions]. rewrite Hc, (contains_truthy name url Hn Hc).
      reflexivity.
Qed.

Lemma add_required_scripts_views_witness :
  let added :=
    map DjangoVue.script_tag
      (DjangoVue.missing (DjangoVue.view_libraries (L := Sample.libraries))
         Sample.hello_soup) in
  exists s' : Bs4.soup,
    DjangoVue.add_required_scripts (L := Sample.libraries)
      DjangoVue.DjangoVueComponent Sample.hello_soup = DjangoVue.Ok s'
    /\ Bs4.update_first "head" (Bs4.extend added) Sample.hello_soup = Some s'
    /\ Bs4.find "head" s' = Some (Bs4.extend added (Bs4.Tag "head" [] []))
    /\ (forall name url : string,
          In (name, url) (DjangoVue.view_libraries (L := Sample.libraries)) ->
          Py.contains name url = true ->
          DjangoVue.script_present name s' = true).
Proof.
  apply (add_required_scripts_views (L := Sample.libraries)
           DjangoVue.DjangoVueComponent Sample.hello_soup (Bs4.Tag "head" [] [])).
  - discriminate.
  - reflexivity.
Defined.

(** The claim of C1 as it is stated fails on the page of object 0, whose
    body loads axios: [get] succeeds, and afterwards no script element of
    the head mentions axios. *)
Lemma axios_not_referenced_in_head :
  match fst (DjangoVue.get_soup (L := Sample.libraries)
               0 Sample.a_request [] Sample.objects) with
  | DjangoVue.Ok s' => DjangoVue.referenced_in_head "axios" s' = false
  | DjangoVue.Raise _ => False
  end.
Proof. vm_compute. reflexivity. Qed.

(** The mixin variant on an empty document: [get] succeeds and the head is
    still empty.  On a document with a script element that has a [src],
    the lambda raises [NameError]. *)
Lemma mixin_get_leaves_head_empty :
  match fst (DjangoVue.get_soup (L := Sample.libraries)
               5 Sample.a_request [] Sample.objects) with
  | DjangoVue.Ok s' => Bs4.find "head" s' = Some (Bs4.Tag "head" [] [])
  | DjangoVue.Raise _ => False
  end.
Proof. vm_compute. reflexivity. Qed.

Lemma mixin_get_name_error :
  fst (DjangoVue.get (L := Sample.libraries) 8 Sample.a_request [] Sample.objects)
  = DjangoVue.Raise (DjangoVue.NameError "name").
Proof. vm_compute. reflexivity. Qed.

(** C8.  Library presence is a substring test on [src]: a document whose
    only script element loads vue-router counts as having vue, and [get]
    adds the other libraries to its head but no script tag for vue. *)
Theorem script_present_by_substring :
  (forall (name : string) (s : Bs4.soup),
     DjangoVue.script_present name s = true
     <-> exists n u, In n (Bs4.descendants s) /\ Bs4.is_tag "script" n = true
                     /\ Bs4.get_attr "src" n = Some u /\ Py.truthy u = true
                     /\ Py.contains name u = true)
  /\ Bs4.find_all "script" Sample.router_soup
     = [Bs4.Tag "script" [("src", "https://unpkg.com/vue-router@next")] []]
  /\ DjangoVue.script_present "vue" Sample.router_soup = true
  /\ match fst (DjangoVue.get_soup (L := Sample.libraries)
                  4 Sample.a_request [] Sample.objects) with
     | DjangoVue.Ok s' =>
         Bs4.find "head" s'
         = Some (Bs4.Tag "head" []
                   (map DjangoVue.script_tag
                      [ "https://unpkg.com/vue-router@next";
                        "https://cdn.jsdelivr.net/npm/vue3-sfc-loader/dist/vue3-sfc-loader.js";
                        "https://unpkg.com/axios/dist/axios.min.js";
                        "/static/django-vue.js" ]))
     | DjangoVue.Raise _ => False
     end.
Proof.
  split; [exact script_present_iff|].
  split; [reflexivity|]. split; [reflexivity|].
  vm_compute. reflexivity.
Qed.

(** ** Instances by name *)

Section DictFacts.

Import DjangoVue.
Context {V : Type} (key : V -> string).

Lemma dict_get_set (k k' : string) (v : V) (d : list (string * V)) :
  dict_get k (dict_set k' v d)
  = if String.eqb k' k then Some v else dict_get k d.
Proof.
  induction d as [|[k1 v1] r IH]; cbn [dict_set dict_get].
  - reflexivity.
  - destruct (String.eqb k1 k') eqn:E1; cbn [dict_get].
    + apply String.eqb_eq in E1. subst k1.
      destruct (String.eqb k' k); reflexivity.
    + destruct (String.eqb k1 k) eqn:E2; [|exact IH].
      apply String.eqb_eq in E2. subst k1. now rewrite String.eqb_sym, E1.
Qed.

Lemma dict_set_keys (k0 k : string) (v : V) (d : list (string * V)) :
  In k0 (map fst (dict_set k v d)) <-> k0 = k \/ In k0 (map fst d).
Proof.
  induction d as [|[k1 v1] r IH]; cbn [dict_set].
  - cbn. intuition.
  - destruct (String.eqb k1 k) eqn:E; cbn [map fst In].
    + apply String.eqb_eq in E. subst k1. intuition.
    + rewrite IH. intuition.
Qed.

Lemma dict_set_nodup (k : string) (v : V) (d : list (string * V)) :
  NoDup (map fst d) -> NoDup (map fst (dict_set k v d)).
Proof.
  induction d as [|[k1 v1] r IH]; cbn [dict_set]; intros H.
  - cbn. constructor; [intros []|constructor].
  - cbn [map fst] in H. inversion H as [|? ? Hn Hr]; subst.
    destruct (String.eqb k1 k) eqn:E; cbn [map fst].
    + now constructor.
    + constructor; [|auto]. rewrite dict_set_keys. intros [->|Hin]; [|contradiction].
      now rewrite String.eqb_refl in E.
Qed.

Lemma dict_get_in (k : string) (v : V) (d : list (string * V)) :
  NoDup (map fst d) -> (In (k, v) d <-> dict_get k d = Some v).
Proof.
  induction d as [|[k1 v1] r IH]; cbn [dict_get map fst In]; intros H.
  - split; [intros []|discriminate].
  - inversion H as [|? ? Hn Hr]; subst.
    destruct (String.eqb k1 k) eqn:E.
    + apply String.eqb_eq in E. subst k1. split.
      * intros [[= ->]|Hin]; [reflexivity|].
        exfalso. apply Hn. apply (in_map fst _ _ Hin).
      * intros [= ->]. now left.
    + rewrite <- (IH Hr). split; [|auto].
      intros [[= -> ->]|Hin]; [|exact Hin].
      now rewrite String.eqb_refl in E.
Qed.

Lemma dict_by_snoc (l : list V) (c : V) :
  dict_by key (l ++ [c]) = dict_set (key c) c (dict_by key l).
Proof. unfold dict_by. now rewrite fold_left_app. Qed.

Lemma last_by_snoc (k : string) (l : list V) (c : V) :
  last_by key k (l ++ [c])
  = if String.eqb (key c) k then Some c else last_by key k l.
Proof. unfold last_by. now rewrite rev_app_distr. Qed.

Lemma last_by_key (k : string) (l : list V) (c : V) :
  last_by key k l = Some c -> key c = k /\ In c l.
Proof.
  unfold last_by. intros H. apply find_some in H. destruct H as [Hin Hk].
  apply String.eqb_eq in Hk. split; [exact Hk|]. now apply in_rev.
Qed.

Lemma last_by_some (l : list V) (c : V) :
  In c l -> exists c', last_by key (key c) l = Some c'.
Proof.
  intros Hin. unfold last_by.
  destruct (List.find (fun c0 => String.eqb (key c0) (key c)) (rev l)) eqn:E;
    [eauto|].
  apply in_rev in Hin. pose proof (find_none _ _ E c Hin) as K.
  cbn beta in K. rewrite String.eqb_refl in K. discriminate.
Qed.

(** The dict of the comprehension: one entry per key, each key bound to
    the last element that has it. *)
Lemma dict_by_spec (l : list V) :
  NoDup (map fst (dict_by key l))
  /\ (forall k, dict_get k (dict_by key l) = last_by key k l)
  /\ (forall k, In k (map fst (dict_by key l)) <-> In k (map key l)).
Proof.
  induction l as [|c l [IH1 [IH2 IH3]]] using rev_ind.
  - split; [constructor|]. split; [reflexivity|]. intros k. reflexivity.
  - rewrite dict_by_snoc. split; [now apply dict_set_nodup|]. split.
    + intros k. now rewrite dict_get_set, last_by_snoc, IH2.
    + intros k. rewrite dict_set_keys, IH3, map_app, in_app_iff.
      cbn [map In]. intuition.
Qed.

Lemma dict_by_values (l : list V) (c : V) :
  In c (values (dict_by key l)) <-> last_by key (key c) l = Some c.
Proof.
  destruct (dict_by_spec l) as [Hn [Hg _]]. unfold values. rewrite in_map_iff.
  split.
  - intros [[k c'] [E Hin]]. cbn [snd] in E. subst c'.
    apply (dict_get_in k c _ Hn) in Hin. rewrite Hg in Hin.
    destruct (last_by_key _ _ _ Hin) as [<- _]. exact Hin.
  - intros H. exists (key c, c). split; [reflexivity|].
    apply (dict_get_in _ _ _ Hn). now rewrite Hg.
Qed.

Lemma dict_by_value_keys (l : list V) :
  map key (values (dict_by key l)) = map fst (dict_by key l).
Proof.
  destruct (dict_by_spec l) as [Hn [Hg _]]. unfold values. rewrite map_map.
  apply map_ext_in. intros [k c] Hin. cbn [fst snd].
  apply (dict_get_in k c _ Hn) in Hin. rewrite Hg in Hin.
  now destruct (last_by_key _ _ _ Hin).
Qed.

End DictFacts.

Section ForEachFacts.

Import DjangoVue.

Lemma for_each_length {A B : Type} (f : A -> M B) (l : list A) :
  forall (st st' : store) (ys : list B),
    for_each f l st = (Ok ys, st') -> List.length ys = List.length l.
Proof.
  induction l as [|x l IH]; intros st st' ys H.
  - cbn in H. injection H as <- _. reflexivity.
  - cbn [for_each] in H. unfold bind at 1 in H.
    destruct (f x st) as [[y|e] st1]; [|discriminate].
    unfold bind at 1 in H.
    destruct (for_each f l st1) as [[ys'|e] st2] eqn:E; [|discriminate].
    unfold ret in H. injection H as <- _. cbn [List.length].
    now rewrite (IH _ _ _ E).
Qed.

End ForEachFacts.

Example instances_sample :
  DjangoVue.instances Sample.objects (Sample.objects 0) 0 = [3; 2; 0].
Proof. reflexivity. Qed.

(** ** Exceptions and the store *)

Section PipelineFacts.

Import Py Bs4 DjangoVue.
Context {L : Libraries}.

(** [get], step by step. *)
Lemma get_soup_unfold (self : oid) (request : HttpRequest) (kw : kwargs) (st : store) :
  get_soup self request kw st
  = match render (st self) (current_request (st self)) kw with
    | Raise e => (Raise e, st)
    | Ok content =>
    match BeautifulSoup content (parser_of (base (st self))) with
    | Raise e => (Raise e, st)
    | Ok soup0 =>
    match add_required_scripts (base (st self)) soup0 with
    | Raise e => (Raise e, st)
    | Ok soup1 =>
    match find_body soup1 with
    | Raise e => (Raise e, st)
    | Ok body =>
        let styles := fst (extract_all "style" (tag_contents body)) in
        let scripts :=
          fst (extract_all "script" (snd (extract_all "style" (tag_contents body)))) in
        match for_each (fun c => get_vue_definition c request None)
                       (instances st (st self) self) st with
        | (Raise e, st') => (Raise e, st')
        | (Ok definitions, st') =>
            (Ok (rebuild_body
                   (new_body styles scripts
                      (app_script st (st self) (join nl definitions)))
                   soup1), st')
        end
    end end end end.
Proof.
  unfold get_soup, bind, read, lift, get_store, ret.
  destruct (render (st self) (current_request (st self)) kw) as [content|e];
    [|reflexivity].
  destruct (BeautifulSoup content _) as [soup0|e]; [|reflexivity].
  destruct (add_required_scripts _ soup0) as [soup1|e]; [|reflexivity].
  destruct (find_body soup1) as [body|e]; [|reflexivity].
  reflexivity.
Qed.

Lemma get_unfold (self : oid) (request : HttpRequest) (kw : kwargs) (st : store) :
  get self request kw st
  = match get_soup self request kw st with
    | (Ok soup, st') => (Ok (renderContents soup), st')
    | (Raise e, st') => (Raise e, st')
    end.
Proof. reflexivity. Qed.

(** [get_vue_template] writes [request] on its object, first of all, and
    nothing else, whatever happens next. *)
Lemma get_vue_template_store (self : oid) (request : HttpRequest) (kw : kwargs)
    (st : store) :
  snd (get_vue_template self request kw st) = snd (set_request self request st).
Proof.
  unfold get_vue_template, bind, read, lift, ret.
  cbn [set_request]. rewrite Nat.eqb_refl.
  cbn [with_request base render current_request DjangoVue.request].
  destruct (render (st self) (Some request) kw) as [content|e]; [|reflexivity].
  destruct (base (st self)); try reflexivity;
    (destruct (BeautifulSoup content _) as [soup|e]; [|reflexivity];
     destruct (find_body soup) as [body|e]; reflexivity).
Qed.

(** The text that [get_vue_template] returns depends on the class and the
    rendering of its object only. *)
Lemma get_vue_template_result (self : oid) (request : HttpRequest) (kw : kwargs)
    (st1 st2 : store) :
  base (st1 self) = base (st2 self) ->
  render (st1 self) = render (st2 self) ->
  fst (get_vue_template self request kw st1)
  = fst (get_vue_template self request kw st2).
Proof.
  intros Hb Hr. unfold get_vue_template, bind, read, lift, ret.
  cbn [set_request]. rewrite Nat.eqb_refl.
  cbn [with_request base render current_request DjangoVue.request].
  rewrite Hb, Hr.
  destruct (render (st2 self) (Some request) kw) as [content|e]; [|reflexivity].
  destruct (base (st2 self)); try reflexivity;
    (destruct (BeautifulSoup content _) as [soup|e]; [|reflexivity];
     destruct (find_body soup) as [body|e]; reflexivity).
Qed.

Lemma get_vue_template_render_raises (self : oid) (request : HttpRequest)
    (kw : kwargs) (st : store) (e : exn) :
  render (st self) (Some request) kw = Raise e ->
  fst (get_vue_template self request kw st) = Raise e.
Proof.
  intros H. unfold get_vue_template, bind, read, lift, ret.
  cbn [set_request]. rewrite Nat.eqb_refl.
  cbn [with_request base render current_request DjangoVue.request].
  now rewrite H.
Qed.

Lemma writes_only_refl (r : HttpRequest) (objs : list oid) (st : store) :
  writes_only r objs st st.
Proof. intros o. now left. Qed.

Lemma writes_only_trans (r : HttpRequest) (objs : list oid) (st1 st2 st3 : store) :
  writes_only r objs st1 st2 -> writes_only r objs st2 st3 ->
  writes_only r objs st1 st3.
Proof.
  intros H12 H23 o. destruct (H23 o) as [E|[Hin E]]; rewrite E.
  - apply H12.
  - right. split; [exact Hin|]. destruct (H12 o) as [E'|[_ E']]; now rewrite E'.
Qed.

Lemma writes_only_weaken (r : HttpRequest) (objs objs' : list oid) (st st' : store) :
  (forall o, In o objs -> In o objs') ->
  writes_only r objs st st' -> writes_only r objs' st st'.
Proof.
  intros Hsub H o. destruct (H o) as [E|[Hin E]]; [now left|].
  right. split; [apply Hsub; exact Hin | exact E].
Qed.

Lemma set_request_writes (self : oid) (r : HttpRequest) (st : store) :
  writes_only r [self] st (snd (set_request self r st)).
Proof.
  intros o. cbn [set_request snd]. destruct (Nat.eqb o self) eqn:E.
  - apply Nat.eqb_eq in E. subst o. right. split; [now left | reflexivity].
  - now left.
Qed.

Lemma get_vue_definition_writes (self : oid) (r : HttpRequest)
    (template : option string) (st : store) :
  writes_only r [self] st (snd (get_vue_definition self r template st)).
Proof.
  assert (T : writes_only r [self] st (snd (get_vue_template self r [] st))).
  { rewrite get_vue_template_store. apply set_request_writes. }
  unfold get_vue_definition, bind, read, ret.
  destruct (base (st self)).
  - destruct template as [t|].
    + destruct (truthy t); [apply writes_only_refl|].
      destruct (get_vue_template self r [] st) as [[t'|e] st']; exact T.
    + destruct (get_vue_template self r [] st) as [[t'|e] st']; exact T.
  - destruct (get_vue_template self r [] st) as [[t'|e] st']; exact T.
  - destruct template as [t|].
    + destruct (truthy t); [apply writes_only_refl|].
      destruct (get_vue_template self r [] st) as [[t'|e] st']; exact T.
    + destruct (get_vue_template self r [] st) as [[t'|e] st']; exact T.
Qed.

Lemma for_each_writes {B : Type} (r : HttpRequest) (f : oid -> M B) (l : list oid) :
  (forall c st, writes_only r [c] st (snd (f c st))) ->
  forall st, writes_only r l st (snd (for_each f l st)).
Proof.
  intros Hf. induction l as [|x l IH]; intros st.
  - apply writes_only_refl.
  - cbn [for_each]. unfold bind at 1.
    pose proof (Hf x st) as Hx.
    destruct (f x st) as [[y|e] st1]; cbn [snd] in Hx.
    + unfold bind at 1. pose proof (IH st1) as Hl.
      destruct (for_each f l st1) as [[ys|e] st2]; cbn [snd] in Hl |- *;
        (apply (writes_only_trans r _ st st1 st2);
         [ apply (writes_only_weaken r [x]); [|exact Hx];
           intros o [<-|[]]; now left
         | apply (writes_only_weaken r l); [|exact Hl];
           intros o Ho; now right ]).
    + cbn [snd]. apply (writes_only_weaken r [x]); [|exact Hx].
      intros o [<-|[]]. now left.
Qed.

Lemma get_soup_writes (self : oid) (r : HttpRequest) (kw : kwargs) (st : store) :
  writes_only r (instances st (st self) self) st (snd (get_soup self r kw st)).
Proof.
  rewrite get_soup_unfold.
  destruct (render (st self) (current_request (st self)) kw) as [content|e];
    [|apply writes_only_refl].
  destruct (BeautifulSoup content _) as [soup0|e]; [|apply writes_only_refl].
  destruct (add_required_scripts _ soup0) as [soup1|e]; [|apply writes_only_refl].
  destruct (find_body soup1) as [body|e]; [|apply writes_only_refl].
  cbv zeta.
  pose proof (for_each_writes r (fun c => get_vue_definition c r None)
                (instances st (st self) self)
                (fun c st0 => get_vue_definition_writes c r None st0) st) as H.
  destruct (for_each _ _ st) as [[defs|e] st']; exact H.
Qed.

End PipelineFacts.

(** An exception raised while the definitions are computed is the outcome
    of [get] as well. *)
Lemma get_definition_failure_propagates
    {L : DjangoVue.Libraries} (self : DjangoVue.oid)
    (request : DjangoVue.HttpRequest) (kw : DjangoVue.kwargs)
    (st : DjangoVue.store) (content : string) (soup0 soup1 : Bs4.soup)
    (body : Bs4.node) (e : DjangoVue.exn) :
  DjangoVue.render (st self) (DjangoVue.current_request (st self)) kw
  = DjangoVue.Ok content ->
  DjangoVue.BeautifulSoup content (DjangoVue.parser_of (DjangoVue.base (st self)))
  = DjangoVue.Ok soup0 ->
  DjangoVue.add_required_scripts (DjangoVue.base (st self)) soup0
  = DjangoVue.Ok soup1 ->
  Bs4.find "body" soup1 = Some body ->
  fst (DjangoVue.for_each
         (fun c => DjangoVue.get_vue_definition c request None)
         (DjangoVue.instances st (st self) self) st) = DjangoVue.Raise e ->
  fst (DjangoVue.get self request kw st) = DjangoVue.Raise e.
Proof.
  intros Hr Hp Ha Hb Hf. rewrite get_unfold, get_soup_unfold, Hr, Hp, Ha.
  unfold DjangoVue.find_body. rewrite Hb. cbv zeta.
  destruct (DjangoVue.for_each _ _ st) as [[defs|e'] st'];
    cbn [fst] in Hf; [discriminate|]. now injection Hf as ->.
Qed.

(** C6.  Neither [get] nor [get_vue_template] handles exceptions: when the
    rendering of the template raises, or the parser does on the rendered
    content, the exception is the outcome of the method and no response or
    template is returned.  [get] renders with the request the host framework
    has set on the view, [get_vue_template] with the one it is given; a
    single-file component does not parse in [get_vue_template]. *)
Theorem exceptions_propagate
    {L : DjangoVue.Libraries} (self : DjangoVue.oid)
    (request : DjangoVue.HttpRequest) (kw : DjangoVue.kwargs)
    (st : DjangoVue.store) (e : DjangoVue.exn) :
  let parser := DjangoVue.parser_of (DjangoVue.base (st self)) in
  let fails r :=
    DjangoVue.render (st self) r kw = DjangoVue.Raise e
    \/ (DjangoVue.base (st self) <> DjangoVue.SingleFileVueComponent
        /\ exists content,
             DjangoVue.render (st self) r kw = DjangoVue.Ok content
             /\ DjangoVue.BeautifulSoup content parser = DjangoVue.Raise e) in
  DjangoVue.current_request (st self) = Some request ->
  fails (Some request) ->
  fst (DjangoVue.get self request kw st) = DjangoVue.Raise e
  /\ fst (DjangoVue.get_vue_template self request kw st) = DjangoVue.Raise e.
Proof.
  intros parser fails Hreq H. split.
  - rewrite get_unfold, get_soup_unfold, Hreq.
    destruct H as [H | [_ [content [H1 H2]]]].
    + now rewrite H.
    + rewrite H1. fold parser. now rewrite H2.
  - destruct H as [H | [Hb [content [H1 H2]]]].
    + now apply get_vue_template_render_raises.
    + destruct (get_vue_template_unfold self request kw st Hb) as [E _].
      rewrite E, H1. cbn [DjangoVue.result_bind]. fold parser. now rewrite H2.
Qed.

(** Without the assumption on the request the view carries: [get] raises
    what the rendering or the parser raises. *)
Lemma get_propagates
    {L : DjangoVue.Libraries} (self : DjangoVue.oid)
    (request : DjangoVue.HttpRequest) (kw : DjangoVue.kwargs)
    (st : DjangoVue.store) (e : DjangoVue.exn) :
  DjangoVue.render (st self) (DjangoVue.current_request (st self)) kw
  = DjangoVue.Raise e
  \/ (exists content,
        DjangoVue.render (st self) (DjangoVue.current_request (st self)) kw
        = DjangoVue.Ok content
        /\ DjangoVue.BeautifulSoup content
             (DjangoVue.parser_of (DjangoVue.base (st self)))
           = DjangoVue.Raise e) ->
  fst (DjangoVue.get self request kw st) = DjangoVue.Raise e.
Proof.
  intros H. rewrite get_unfold, get_soup_unfold.
  destruct H as [H | [content [H1 H2]]].
  - now rewrite H.
  - now rewrite H1, H2.
Qed.

Lemma exceptions_propagate_witness :
  fst (DjangoVue.get (L := Sample.libraries)
         6 Sample.a_request [] Sample.dispatched)
  = DjangoVue.Raise (DjangoVue.Exception "TemplateDoesNotExist")
  /\ fst (DjangoVue.get_vue_template (L := Sample.libraries)
            6 Sample.a_request [] Sample.dispatched)
     = DjangoVue.Raise (DjangoVue.Exception "TemplateDoesNotExist").
Proof.
  apply (exceptions_propagate (L := Sample.libraries) 6 Sample.a_request []
           Sample.dispatched (DjangoVue.Exception "TemplateDoesNotExist")).
  - reflexivity.
  - left. reflexivity.
Defined.

(** A parser failure, evaluated. *)
Lemma parser_failure_propagates :
  fst (DjangoVue.get (L := Sample.libraries) 7 Sample.a_request [] Sample.objects)
  = DjangoVue.Raise (DjangoVue.Exception "ParserRejectedMarkup")
  /\ fst (DjangoVue.get_vue_template (L := Sample.libraries)
            7 Sample.a_request [] Sample.objects)
     = DjangoVue.Raise (DjangoVue.Exception "ParserRejectedMarkup").
Proof. split; vm_compute; reflexivity. Qed.

(** C7.  [get] leaves every view object as it was or with its [request]
    attribute set to the request, the latter only on the instances whose
    definitions it computes; the declared configuration of every object is
    unchanged; and the write is the one of [get_vue_template], which sets
    [request] on its own object and writes nothing else. *)
Theorem get_writes_only_request
    {L : DjangoVue.Libraries} (self : DjangoVue.oid)
    (request : DjangoVue.HttpRequest) (kw : DjangoVue.kwargs)
    (st : DjangoVue.store) :
  let st' := snd (DjangoVue.get self request kw st) in
  DjangoVue.writes_only request
    (DjangoVue.instances st (st self) self) st st'
  /\ (forall o,
        DjangoVue.vue_components (st' o) = DjangoVue.vue_components (st o)
        /\ DjangoVue.vue_data (st' o) = DjangoVue.vue_data (st o)
        /\ DjangoVue.vue_emits (st' o) = DjangoVue.vue_emits (st o)
        /\ DjangoVue.vue_props (st' o) = DjangoVue.vue_props (st o)
        /\ DjangoVue.vue_routes (st' o) = DjangoVue.vue_routes (st o))
  /\ (forall o kw',
        snd (DjangoVue.get_vue_template o request kw' st)
        = snd (DjangoVue.set_request o request st)).
Proof.
  intros st'.
  assert (W : DjangoVue.writes_only request
                (DjangoVue.instances st (st self) self) st st').
  { unfold st'. rewrite get_unfold.
    pose proof (get_soup_writes self request kw st) as H.
    destruct (DjangoVue.get_soup self request kw st) as [[soup|e] st1]; exact H. }
  split; [exact W|]. split.
  - intros o. destruct (W o) as [E|[_ E]]; rewrite E; repeat split; reflexivity.
  - intros o kw'. apply get_vue_template_store.
Qed.

(** The store after a request for the page of object 0: the instances 3,
    2 and 0 carry the request, object 1, shadowed by object 3, does not. *)
Lemma get_store_sample :
  let st' := snd (DjangoVue.get (L := Sample.libraries)
                    0 Sample.a_request [] Sample.objects) in
  map (fun o => DjangoVue.request (st' o)) [0; 1; 2; 3]
  = [Some Sample.a_request; None; Some Sample.a_request; Some Sample.a_request].
Proof. vm_compute. reflexivity. Qed.

(** ** The rebuilt body *)

Section SubstringFacts.

Import Py.

Lemma str_app_assoc (a b c : string) : ((a ++ b) ++ c = a ++ (b ++ c))%string.
Proof. induction a as [|x a IH]; [reflexivity|]. cbn. now rewrite IH. Qed.

Lemma str_app_nil_r (a : string) : (a ++ EmptyString = a)%string.
Proof. induction a as [|x a IH]; [reflexivity|]. cbn. now rewrite IH. Qed.

Lemma substring_here (t post : string) : substring_of t (t ++ post).
Proof. exists EmptyString, post. reflexivity. Qed.

Lemma substring_refl (t : string) : substring_of t t.
Proof. exists EmptyString, EmptyString. cbn. now rewrite str_app_nil_r. Qed.

Lemma substring_skip (t a s : string) :
  substring_of t s -> substring_of t (a ++ s).
Proof.
  intros [pre [post ->]]. exists (a ++ pre)%string, post.
  now rewrite str_app_assoc.
Qed.

Lemma substring_trans (t u s : string) :
  substring_of t u -> substring_of u s -> substring_of t s.
Proof.
  intros [p1 [q1 ->]] [p2 [q2 ->]].
  exists (p2 ++ p1)%string, (q1 ++ q2)%string.
  now rewrite !str_app_assoc.
Qed.

Lemma substring_join (y sep : string) (ys : list string) :
  In y ys -> substring_of y (join sep ys).
Proof.
  induction ys as [|x r IH]; intros H; [destruct H|].
  cbn [join]. destruct r as [|x' r'].
  - destruct H as [->|[]]. apply substring_refl.
  - destruct H as [->|H].
    + apply substring_here.
    + do 2 apply substring_skip. now apply IH.
Qed.

End SubstringFacts.

Section BodyFacts.

Import Py Bs4 DjangoVue.
Context {L : Libraries}.

Lemma writes_only_same_views (r : HttpRequest) (objs : list oid) (st st' : store) :
  writes_only r objs st st' -> same_views st st'.
Proof.
  intros H o. destruct (H o) as [E|[_ E]]; rewrite E; split; reflexivity.
Qed.

Lemma same_views_trans (st1 st2 st3 : store) :
  same_views st1 st2 -> same_views st2 st3 -> same_views st1 st3.
Proof.
  intros H12 H23 o. destruct (H12 o) as [A B]. destruct (H23 o) as [C D].
  split; congruence.
Qed.

(** Each element of the list is handled in a store that differs from the
    first by the writes of the elements before it. *)
Lemma for_each_in {B : Type} (f : oid -> M B) (l : list oid) :
  (forall c st, same_views st (snd (f c st))) ->
  forall (st st' : store) (ys : list B) (x : oid),
    for_each f l st = (Ok ys, st') -> In x l ->
    exists st_k y, same_views st st_k /\ fst (f x st_k) = Ok y /\ In y ys.
Proof.
  intros Hf. induction l as [|c l IH]; intros st st' ys x H Hin; [destruct Hin|].
  cbn [for_each] in H. unfold bind at 1 in H.
  pose proof (Hf c st) as Hc.
  destruct (f c st) as [[y|e] st1] eqn:Ec; [|discriminate]. cbn [snd] in Hc.
  unfold bind at 1 in H.
  destruct (for_each f l st1) as [[ys'|e] st2] eqn:El; [|discriminate].
  unfold ret in H. injection H as <- _.
  destruct Hin as [<-|Hin].
  - exists st, y. split; [|split].
    + intros o. split; reflexivity.
    + now rewrite Ec.
    + now left.
  - destruct (IH st1 st2 ys' x El Hin) as [st_k [y' [R [E I]]]].
    exists st_k, y'. split; [|split].
    + apply (same_views_trans st st1 st_k Hc R).
    + exact E.
    + now right.
Qed.

(** A definition holds the template that [get_vue_template] returns. *)
Lemma get_vue_definition_template (self : oid) (request : HttpRequest)
    (st : store) (d : string) :
  fst (get_vue_definition self request None st) = Ok d ->
  exists t, fst (get_vue_template self request [] st) = Ok t /\ substring_of t d.
Proof.
  unfold get_vue_definition, bind, read, ret.
  destruct (base (st self));
    destruct (get_vue_template self request [] st) as [[t|e] st1];
    cbn [fst]; intros H; try discriminate; injection H as <-;
    exists t; (split; [reflexivity|]).
  - unfold component_definition.
    repeat first [apply substring_here | apply substring_skip].
  - unfold single_file_definition.
    repeat first [apply substring_here | apply substring_skip].
  - unfold component_definition.
    repeat first [apply substring_here | apply substring_skip].
Qed.

Lemma app_script_definitions (st : store) (v : view) (definitions : string) :
  substring_of definitions (app_script st v definitions).
Proof.
  unfold app_script. repeat first [apply substring_here | apply substring_skip].
Qed.

Lemma instances_self (st : store) (v : view) (self : oid) :
  In self (instances st v self).
Proof.
  unfold instances. apply dict_by_values. unfold candidates.
  rewrite app_assoc, last_by_snoc. now rewrite String.eqb_refl.
Qed.

End BodyFacts.

Section EmissionFacts.

Import Py Bs4 DjangoVue.
Context {L : Libraries}.

Lemma find_split {A : Type} (p : A -> bool) (l : list A) (x : A) :
  List.find p l = Some x ->
  exists a b, l = a ++ x :: b /\ (forall y, In y a -> p y = false).
Proof.
  induction l as [|z l IH]; intros H; [discriminate|].
  cbn [List.find] in H. destruct (p z) eqn:E.
  - injection H as ->. exists [], l. split; [reflexivity|]. intros y [].
  - destruct (IH H) as [a [b [-> Ha]]]. exists (z :: a), b.
    split; [reflexivity|]. intros y [<-|Hy]; auto.
Qed.

Lemma find_skip {A : Type} (p : A -> bool) (a b : list A) (x : A) :
  (forall y, In y a -> p y = false) -> p x = true ->
  List.find p (a ++ x :: b) = Some x.
Proof.
  intros Ha Hx. induction a as [|z a IH]; cbn [app List.find].
  - now rewrite Hx.
  - rewrite (Ha z (or_introl eq_refl)). apply IH. intros y Hy. apply Ha. now right.
Qed.

(** The last element with a key, said with the list cut in two. *)
Lemma last_by_split {V : Type} (key : V -> string) (l : list V) (c : V) :
  last_by key (key c) l = Some c
  <-> exists pre post,
        l = pre ++ c :: post /\ (forall c', In c' post -> key c' <> key c).
Proof.
  unfold last_by. split.
  - intros H. apply find_split in H. destruct H as [a [b [E Ha]]].
    exists (rev b), (rev a). split.
    + rewrite <- (rev_involutive l), E, rev_app_distr. cbn [rev].
      now rewrite <- app_assoc.
    + intros c' Hc' Ek. apply in_rev in Hc'. specialize (Ha c' Hc').
      cbn beta in Ha. rewrite Ek, String.eqb_refl in Ha. discriminate.
  - intros [pre [post [-> Hpost]]].
    rewrite rev_app_distr. cbn [rev]. rewrite <- app_assoc. cbn [app].
    apply find_skip; [|apply String.eqb_refl].
    intros y Hy. apply in_rev in Hy. apply String.eqb_neq. now apply Hpost.
Qed.

Lemma component_definition_template (v : view) (t : string) :
  substring_of t (component_definition v t).
Proof.
  unfold component_definition.
  repeat first [apply substring_here | apply substring_skip].
Qed.

(** A definition does not depend on the [request] that the object holds
    when the method is called: the method sets it before it renders. *)
Lemma get_vue_definition_result (c : oid) (r : HttpRequest) (st st_k : store) :
  st_k c = st c \/ st_k c = with_request r (st c) ->
  fst (get_vue_definition c r None st_k) = fst (get_vue_definition c r None st).
Proof.
  intros H.
  assert (Hb : base (st_k c) = base (st c))
    by (destruct H as [-> | ->]; reflexivity).
  assert (Hr : render (st_k c) = render (st c))
    by (destruct H as [-> | ->]; reflexivity).
  assert (Hc : forall t, component_definition (st_k c) t
                         = component_definition (st c) t)
    by (intros t; destruct H as [-> | ->]; reflexivity).
  assert (Hs : forall t, single_file_definition (st_k c) t
                         = single_file_definition (st c) t)
    by (intros t; destruct H as [-> | ->]; reflexivity).
  pose proof (get_vue_template_result c r [] st_k st Hb Hr) as T.
  unfold get_vue_definition, bind, read, ret. rewrite Hb.
  destruct (base (st c));
    destruct (get_vue_template c r [] st_k) as [[t|e] s1];
    destruct (get_vue_template c r [] st) as [[t'|e'] s2];
    cbn [fst] in T |- *; try discriminate; injection T as ->;
    rewrite ?Hc, ?Hs; reflexivity.
Qed.

(** The results of the loop are the results that its elements give in the
    first store, when the elements write nothing but [request] and their
    results do not depend on it. *)
Lemma for_each_results {B : Type} (r : HttpRequest) (f : oid -> M B) :
  (forall c st, writes_only r [c] st (snd (f c st))) ->
  (forall c st st_k,
      st_k c = st c \/ st_k c = with_request r (st c) ->
      fst (f c st_k) = fst (f c st)) ->
  forall (l : list oid) (st0 st st' : store) (ys : list B),
    (forall o, st o = st0 o \/ st o = with_request r (st0 o)) ->
    for_each f l st = (Ok ys, st') ->
    map (fun c => fst (f c st0)) l = map Ok ys.
Proof.
  intros Hw Hi. induction l as [|c l IH]; intros st0 st st' ys R H.
  - cbn in H. injection H as <- _. reflexivity.
  - cbn [for_each] in H. unfold bind at 1 in H.
    pose proof (Hw c st) as Hc.
    destruct (f c st) as [[y|e] st1] eqn:Ec; [|discriminate]. cbn [snd] in Hc.
    unfold bind at 1 in H.
    destruct (for_each f l st1) as [[ys'|e] st2] eqn:El; [|discriminate].
    unfold ret in H. injection H as <- _. cbn [map]. f_equal.
    + rewrite <- (Hi c st0 st (R c)), Ec. reflexivity.
    + apply (IH st0 st1 st2 ys'); [|exact El].
      intros o. destruct (Hc o) as [E|[_ E]]; rewrite E.
      * apply R.
      * right. destruct (R o) as [E'|E']; rewrite E'; reflexivity.
Qed.

Lemma map_ok_forall2 {B : Type} (g : oid -> result B) (P : oid -> B -> Prop)
    (l : list oid) :
  (forall c y, g c = Ok y -> P c y) ->
  forall ys, map g l = map Ok ys -> Forall2 P l ys.
Proof.
  intros Hg. induction l as [|c l IH]; intros [|y ys] H; try discriminate.
  - constructor.
  - cbn [map] in H. injection H as Hy Hl. constructor; auto.
Qed.

(** A definition declares the constant named after its object. *)
Lemma get_vue_definition_const (c : oid) (r : HttpRequest) (st : store)
    (d : string) :
  fst (get_vue_definition c r None st) = Ok d ->
  exists rest,
    d = (nl ++ spaces 12 ++ "const " ++ get_vue_name (st c) ++ " = "
         ++ rest)%string.
Proof.
  unfold get_vue_definition, bind, read, ret.
  destruct (base (st c));
    destruct (get_vue_template c r [] st) as [[t|e] st1];
    cbn [fst]; intros H; try discriminate; injection H as <-;
    eexists; reflexivity.
Qed.

(** The candidates are the values of the two dicts and the view, as the
    fields of the view give them. *)
Lemma candidates_fields (v : view) (self : oid) :
  candidates v self
  = map snd (vue_components v) ++ map snd (vue_routes v) ++ [self].
Proof. reflexivity. Qed.

End EmissionFacts.

(** C5.  The instances whose definitions [get] emits are drawn from the
    sub-components, then the routed views, then the view itself, with one
    instance per derived name: the names of the instances are distinct, they
    are the names found in that list, an object is an instance exactly when
    no object after it in the list has its name, and the view itself is an
    instance.  When [get] succeeds, the body of the document holds a script
    element whose text is the loader line, then one definition per
    instance, in the order of the instances and joined by newlines, then
    the creation of the application: the definition of an instance is what
    [get_vue_definition] returns for it, and declares the constant of its
    name. *)
Theorem instances_unique_by_name
    {L : DjangoVue.Libraries} (self : DjangoVue.oid)
    (request : DjangoVue.HttpRequest) (kw : DjangoVue.kwargs)
    (st : DjangoVue.store) :
  let name := fun c => DjangoVue.get_vue_name (st c) in
  let cs :=
    map snd (DjangoVue.vue_components (st self))
    ++ map snd (DjangoVue.vue_routes (st self))
    ++ [self] in
  let inst := DjangoVue.instances st (st self) self in
  NoDup (map name inst)
  /\ (forall n, In n (map name inst) <-> In n (map name cs))
  /\ (forall c,
        In c inst
        <-> exists pre post,
              cs = pre ++ c :: post
              /\ (forall c', In c' post -> name c' <> name c))
  /\ In self inst
  /\ (forall (soup' : Bs4.soup) (st' : DjangoVue.store),
        DjangoVue.get_soup self request kw st = (DjangoVue.Ok soup', st') ->
        exists (definitions : list string) (body : Bs4.node) (rest : string),
          map (fun c => fst (DjangoVue.get_vue_definition c request None st)) inst
          = map DjangoVue.Ok definitions
          /\ Forall2
               (fun c d =>
                  exists tail,
                    d = (Py.nl ++ Py.spaces 12 ++ "const " ++ name c ++ " = "
                         ++ tail)%string)
               inst definitions
          /\ Bs4.find "body" soup' = Some body
          /\ In (Bs4.Tag "script" []
                   [Bs4.NavigableString
                      (Py.nl ++ Py.spaces 12 ++ "const { loadModule } = window["
                       ++ Py.dquote ++ "vue3-sfc-loader" ++ Py.dquote ++ "];"
                       ++ Py.nl
                       ++ Py.spaces 12 ++ Py.join Py.nl definitions ++ Py.nl
                       ++ Py.spaces 12 ++ "const app = Vue.createApp("
                       ++ name self ++ ")" ++ rest)%string])
                (Bs4.tag_contents body)).
Proof.
  intros name cs inst.
  assert (Ei : inst = DjangoVue.values (DjangoVue.dict_by name cs)).
  { unfold inst, DjangoVue.instances. now rewrite candidates_fields. }
  destruct (dict_by_spec name cs) as [Hn [Hg Hk]].
  split; [|split; [|split; [|split]]].
  - rewrite Ei. now rewrite dict_by_value_keys.
  - intros n. rewrite Ei. now rewrite dict_by_value_keys.
  - intros c. rewrite Ei, dict_by_values. apply last_by_split.
  - apply instances_self.
  - intros soup' st' H. rewrite get_soup_unfold in H.
    destruct (DjangoVue.render (st self) _ kw) as [content|e]; [|discriminate].
    destruct (DjangoVue.BeautifulSoup content _) as [soup0|e]; [|discriminate].
    destruct (DjangoVue.add_required_scripts _ soup0) as [soup1|e];
      [|discriminate].
    destruct (DjangoVue.find_body soup1) as [body|e] eqn:Eb; [|discriminate].
    cbv zeta in H. fold inst in H.
    destruct (DjangoVue.for_each _ inst st) as [[defs|e] st1] eqn:Ef;
      [|discriminate].
    injection H as Hs _.
    unfold DjangoVue.find_body in Eb.
    destruct (Bs4.find "body" soup1) as [b|] eqn:Efind; [|discriminate].
    injection Eb as ->.
    assert (Em : map (fun c => fst (DjangoVue.get_vue_definition c request None st))
                     inst
                 = map DjangoVue.Ok defs).
    { apply (for_each_results request
               (fun c => DjangoVue.get_vue_definition c request None)
               (fun c st0 => get_vue_definition_writes c request None st0)
               (fun c st0 st_k => get_vue_definition_result c request st0 st_k)
               inst st st st1 defs); [|exact Ef].
      intros o. now left. }
    unfold DjangoVue.rebuild_body, DjangoVue.new_body in Hs.
    cbn [Bs4.extract_all fst snd] in Hs. unfold Bs4.new_tag in Hs.
    match type of Hs with
    | context [Bs4.update_first "body" (Bs4.set_contents ?l) soup1] =>
        set (children := l) in *
    end.
    destruct (update_first_some "body" (Bs4.set_contents children) soup1 body Efind)
      as [s2 U].
    rewrite U in Hs. subst s2.
    exists defs, (Bs4.set_contents children body). eexists.
    split; [exact Em|]. split; [|split].
    + apply (map_ok_forall2 _ _ inst
               (fun c d => get_vue_definition_const c request st d) defs Em).
    + apply (find_update_first "body" _ soup1 soup' body); try assumption.
      rewrite set_contents_is_tag. apply (find_is_tag "body" soup1 body Efind).
    + pose proof (find_is_tag "body" soup1 body Efind) as Hb.
      destruct body as [|tn ta tc]; [discriminate|].
      cbn [Bs4.set_contents Bs4.tag_contents]. unfold children.
      apply in_or_app. right. right. left.
      unfold DjangoVue.app_script, name. reflexivity.
Qed.

(** The page of object 0, where the routed view 3 takes the name of the
    sub-component 1: the script of its body holds the definitions of the
    objects 3, 2 and 0. *)
Lemma instances_unique_by_name_witness :
  exists (definitions : list string) (body : Bs4.node) (rest : string),
    map (fun c => fst (DjangoVue.get_vue_definition (L := Sample.libraries)
                         c Sample.a_request None Sample.objects))
        [3; 2; 0]
    = map DjangoVue.Ok definitions
    /\ Forall2
         (fun c d =>
            exists tail,
              d = (Py.nl ++ Py.spaces 12 ++ "const "
                   ++ DjangoVue.get_vue_name (Sample.objects c) ++ " = "
                   ++ tail)%string)
         [3; 2; 0] definitions
    /\ Bs4.find "body" Sample.hello_page_soup = Some body
    /\ In (Bs4.Tag "script" []
             [Bs4.NavigableString
                (Py.nl ++ Py.spaces 12 ++ "const { loadModule } = window["
                 ++ Py.dquote ++ "vue3-sfc-loader" ++ Py.dquote ++ "];"
                 ++ Py.nl
                 ++ Py.spaces 12 ++ Py.join Py.nl definitions ++ Py.nl
                 ++ Py.spaces 12 ++ "const app = Vue.createApp("
                 ++ DjangoVue.get_vue_name (Sample.objects 0) ++ ")"
                 ++ rest)%string])
          (Bs4.tag_contents body).
Proof.
  destruct (instances_unique_by_name (L := Sample.libraries)
              0 Sample.a_request [] Sample.objects) as [_ [_ [_ [_ H]]]].
  apply (H Sample.hello_page_soup Sample.hello_page_store).
  vm_compute. reflexivity.
Defined.

(** C10.  [get_vue_definition] called with a falsy template, the empty
    string as much as [None], renders the template itself: it does what
    [get_vue_template] does to the store, and the definition it returns is
    the object literal with the text that [get_vue_template] returns
    between the backquotes of [template:]; it raises what
    [get_vue_template] raises. *)
Theorem get_vue_definition_falsy_template
    {L : DjangoVue.Libraries} (self : DjangoVue.oid)
    (request : DjangoVue.HttpRequest) (template : option string)
    (st : DjangoVue.store) :
  DjangoVue.is_truthy template = false ->
  DjangoVue.base (st self) <> DjangoVue.SingleFileVueComponent ->
  let text (t : string) : string :=
    (Py.nl ++ Py.spaces 12 ++ "const " ++ DjangoVue.get_vue_name (st self) ++ " = {" ++ Py.nl
     ++ Py.spaces 14 ++ "data() {" ++ Py.nl
     ++ Py.spaces 16 ++ "return " ++ DjangoVue.json_dumps (DjangoVue.vue_data (st self)) ++ Py.nl
     ++ Py.spaces 14 ++ "}," ++ Py.nl
     ++ Py.spaces 14 ++ "emits: "
     ++ DjangoVue.json_dumps (DjangoVue.JArray (map DjangoVue.JString (DjangoVue.vue_emits (st self))))
     ++ "," ++ Py.nl
     ++ Py.spaces 14 ++ "props: "
     ++ DjangoVue.json_dumps (DjangoVue.JArray (map DjangoVue.JString (DjangoVue.vue_props (st self))))
     ++ "," ++ Py.nl
     ++ Py.spaces 14 ++ "template: `" ++ t ++ "`," ++ Py.nl
     ++ Py.spaces 12 ++ "}" ++ Py.nl
     ++ Py.spaces 8)%string in
  match DjangoVue.get_vue_template self request [] st with
  | (DjangoVue.Ok t, st') =>
      DjangoVue.get_vue_definition self request template st
      = (DjangoVue.Ok (text t), st')
      /\ Py.substring_of t (text t)
  | (DjangoVue.Raise e, st') =>
      DjangoVue.get_vue_definition self request template st
      = (DjangoVue.Raise e, st')
  end.
Proof.
  intros Hf Hb text.
  assert (E : DjangoVue.get_vue_definition self request template st
              = DjangoVue.get_vue_definition self request None st).
  { destruct template as [t|]; [|reflexivity].
    cbn [DjangoVue.is_truthy] in Hf.
    unfold DjangoVue.get_vue_definition, DjangoVue.bind, DjangoVue.read.
    now rewrite Hf. }
  rewrite E.
  unfold DjangoVue.get_vue_definition, DjangoVue.bind, DjangoVue.read, DjangoVue.ret.
  destruct (DjangoVue.base (st self)); try congruence;
    destruct (DjangoVue.get_vue_template self request [] st) as [[t|e] st'];
    try reflexivity;
    (split;
     [ reflexivity
     | change (Py.substring_of t (DjangoVue.component_definition (st self) t));
       apply component_definition_template ]).
Qed.

Lemma get_vue_definition_falsy_template_witness :
  let text (t : string) : string :=
    (Py.nl ++ Py.spaces 12 ++ "const " ++ DjangoVue.get_vue_name (Sample.objects 1) ++ " = {" ++ Py.nl
     ++ Py.spaces 14 ++ "data() {" ++ Py.nl
     ++ Py.spaces 16 ++ "return " ++ DjangoVue.json_dumps (Libraries := Sample.libraries) (DjangoVue.vue_data (Sample.objects 1)) ++ Py.nl
     ++ Py.spaces 14 ++ "}," ++ Py.nl
     ++ Py.spaces 14 ++ "emits: "
     ++ DjangoVue.json_dumps (Libraries := Sample.libraries) (DjangoVue.JArray (map DjangoVue.JString (DjangoVue.vue_emits (Sample.objects 1))))
     ++ "," ++ Py.nl
     ++ Py.spaces 14 ++ "props: "
     ++ DjangoVue.json_dumps (Libraries := Sample.libraries) (DjangoVue.JArray (map DjangoVue.JString (DjangoVue.vue_props (Sample.objects 1))))
     ++ "," ++ Py.nl
     ++ Py.spaces 14 ++ "template: `" ++ t ++ "`," ++ Py.nl
     ++ Py.spaces 12 ++ "}" ++ Py.nl
     ++ Py.spaces 8)%string in
  match DjangoVue.get_vue_template (L := Sample.libraries) 1 Sample.a_request [] Sample.objects with
  | (DjangoVue.Ok t, st') =>
      DjangoVue.get_vue_definition (L := Sample.libraries) 1 Sample.a_request (Some EmptyString) Sample.objects
      = (DjangoVue.Ok (text t), st')
      /\ Py.substring_of t (text t)
  | (DjangoVue.Raise e, st') =>
      DjangoVue.get_vue_definition (L := Sample.libraries) 1 Sample.a_request (Some EmptyString) Sample.objects
      = (DjangoVue.Raise e, st')
  end.
Proof.
  apply (get_vue_definition_falsy_template (L := Sample.libraries)
           1 Sample.a_request (Some EmptyString) Sample.objects).
  - reflexivity.
  - discriminate.
Defined.

(** The definition of object 1 for an empty template argument, evaluated:
    the rendered template is in it, not the empty string. *)
Lemma get_vue_definition_empty_template_sample :
  match fst (DjangoVue.get_vue_definition (L := Sample.libraries)
               1 Sample.a_request (Some EmptyString) Sample.objects) with
  | DjangoVue.Ok d =>
      Py.contains "template: `<li>{{ item }}</li>`," d = true
      /\ Py.contains "template: ``," d = false
  | DjangoVue.Raise _ => False
  end.
Proof. vm_compute. split; reflexivity. Qed.

(** C9.  When [get] succeeds, the document it serializes is the document
    left by the library step with the children of its body replaced, and
    nothing else changed: the body holds, in order, the style elements
    extracted from it, a [div] with id [app], a script element, and the
    script elements extracted from it.  The text of the script element is
    the bootstrapping script, written out here: the loader, the
    definitions of the instances one per line, the application created from
    the view, the registrations of the sub-components, the router with the
    routes, and the mounting on [#app].  What else the body held is gone
    from the body; the bootstrapping script holds the template that
    [get_vue_template] returns for the view. *)
Theorem get_rebuilds_body
    {L : DjangoVue.Libraries} (self : DjangoVue.oid)
    (request : DjangoVue.HttpRequest) (kw : DjangoVue.kwargs)
    (st st' : DjangoVue.store) (soup' : Bs4.soup) :
  DjangoVue.get_soup self request kw st = (DjangoVue.Ok soup', st') ->
  exists (content : string) (soup0 soup1 : Bs4.soup) (body : Bs4.node)
         (definitions : list string) (template : string),
    DjangoVue.render (st self) (DjangoVue.current_request (st self)) kw
    = DjangoVue.Ok content
    /\ DjangoVue.BeautifulSoup content
         (DjangoVue.parser_of (DjangoVue.base (st self))) = DjangoVue.Ok soup0
    /\ DjangoVue.add_required_scripts (DjangoVue.base (st self)) soup0
       = DjangoVue.Ok soup1
    /\ Bs4.find "body" soup1 = Some body
    /\ DjangoVue.for_each
         (fun c => DjangoVue.get_vue_definition c request None)
         (DjangoVue.instances st (st self) self) st
       = (DjangoVue.Ok definitions, st')
    /\ (let script_text : string :=
          (Py.nl ++ Py.spaces 12 ++ "const { loadModule } = window[" ++ Py.dquote
           ++ "vue3-sfc-loader" ++ Py.dquote ++ "];" ++ Py.nl
           ++ Py.spaces 12 ++ Py.join Py.nl definitions ++ Py.nl
           ++ Py.spaces 12 ++ "const app = Vue.createApp(" ++ DjangoVue.get_vue_name (st self) ++ ")"
           ++ Py.nl
           ++ Py.spaces 12
           ++ Py.join Py.nl
                (map (fun kv : string * DjangoVue.oid =>
                        "app.component(" ++ Py.dquote ++ fst kv ++ Py.dquote ++ ", "
                        ++ DjangoVue.get_vue_name (st (snd kv)) ++ ")")
                     (DjangoVue.vue_components (st self)))
           ++ Py.nl
           ++ Py.spaces 12 ++ "const router = VueRouter.createRouter({" ++ Py.nl
           ++ Py.spaces 14 ++ "history: VueRouter.createWebHashHistory()," ++ Py.nl
           ++ Py.spaces 14 ++ "routes: ["
           ++ Py.join ","
                (map (fun kv : string * DjangoVue.oid =>
                        "{ path: " ++ Py.dquote ++ fst kv ++ Py.dquote ++ ", component: "
                        ++ DjangoVue.get_vue_name (st (snd kv)) ++ " }")
                     (DjangoVue.vue_routes (st self)))
           ++ "]" ++ Py.nl
           ++ Py.spaces 12 ++ "})" ++ Py.nl
           ++ Py.spaces 12 ++ "app.use(router)" ++ Py.nl
           ++ Py.spaces 12 ++ "app.mount(" ++ Py.dquote ++ "#app" ++ Py.dquote ++ ")" ++ Py.nl
           ++ Py.spaces 8)%string in
        let styles :=
          map (Bs4.prune "style") (Bs4.find_all "style" (Bs4.tag_contents body)) in
        let scripts :=
          map (Bs4.prune "script")
              (Bs4.find_all "script"
                 (Bs4.strip "style" (Bs4.tag_contents body))) in
        let children :=
          styles
          ++ [ Bs4.Tag "div" [("id", "app")] [];
               Bs4.Tag "script" [] [Bs4.NavigableString script_text] ]
          ++ scripts in
        Bs4.update_first "body" (Bs4.set_contents children) soup1 = Some soup'
        /\ Bs4.find "body" soup' = Some (Bs4.set_contents children body)
        /\ Bs4.tag_contents (Bs4.set_contents children body) = children
        /\ Py.substring_of template script_text)
    /\ fst (DjangoVue.get_vue_template self request [] st)
       = DjangoVue.Ok template
    /\ DjangoVue.get self request kw st
       = (DjangoVue.Ok (DjangoVue.renderContents soup'), st').
Proof.
  intros H. pose proof H as H0. rewrite get_soup_unfold in H.
  destruct (DjangoVue.render (st self) _ kw) as [content|e] eqn:Er; [|discriminate].
  destruct (DjangoVue.BeautifulSoup content _) as [soup0|e] eqn:Ep; [|discriminate].
  destruct (DjangoVue.add_required_scripts _ soup0) as [soup1|e] eqn:Ea;
    [|discriminate].
  destruct (DjangoVue.find_body soup1) as [body|e] eqn:Eb; [|discriminate].
  cbv zeta in H.
  destruct (DjangoVue.for_each _ _ st) as [[defs|e] st1] eqn:Ef; [|discriminate].
  injection H as Hs Hst. subst st1.
  unfold DjangoVue.find_body in Eb.
  destruct (Bs4.find "body" soup1) as [b|] eqn:Efind; [|discriminate].
  injection Eb as ->.
  (* the definition of the view itself is among those emitted *)
  destruct (for_each_in
              (fun c => DjangoVue.get_vue_definition c request None)
              (DjangoVue.instances st (st self) self)
              (fun c st0 =>
                 writes_only_same_views request [c] st0 _
                   (get_vue_definition_writes c request None st0))
              st st' defs self Ef (instances_self st (st self) self))
    as [st_k [d [R [Ed Id]]]].
  destruct (get_vue_definition_template self request st_k d Ed) as [t [Et St]].
  destruct (R self) as [Rb Rr].
  rewrite (get_vue_template_result self request [] st_k st Rb Rr) in Et.
  exists content, soup0, soup1, body, defs, t.
  do 5 (split; [first [reflexivity | assumption]|]).
  split; [|split; [exact Et | rewrite get_unfold, H0; reflexivity]].
  cbv zeta.
  match goal with
  | |- context [Bs4.NavigableString ?x] =>
      change x with (DjangoVue.app_script st (st self) (Py.join Py.nl defs))
  end.
  set (text := DjangoVue.app_script st (st self) (Py.join Py.nl defs)) in *.
  unfold DjangoVue.rebuild_body, DjangoVue.new_body in Hs.
  cbn [Bs4.extract_all fst snd] in Hs. unfold Bs4.new_tag in Hs.
  match type of Hs with
  | context [Bs4.update_first "body" (Bs4.set_contents ?cs) soup1] =>
      set (children := cs) in *
  end.
  destruct (update_first_some "body" (Bs4.set_contents children) soup1 body Efind)
    as [s2 U].
  rewrite U in Hs. subst s2.
  split; [exact U|]. split; [|split].
  - apply (find_update_first "body" _ soup1 soup' body); try assumption.
    rewrite set_contents_is_tag. apply (find_is_tag "body" soup1 body Efind).
  - pose proof (find_is_tag "body" soup1 body Efind) as Hb.
    destruct body; [discriminate | reflexivity].
  - apply (substring_trans t d text St).
    apply (substring_trans d (Py.join Py.nl defs) text).
    + now apply substring_join.
    + apply app_script_definitions.
Qed.

Lemma get_rebuilds_body_witness :
  exists (content : string) (soup0 soup1 : Bs4.soup) (body : Bs4.node)
         (definitions : list string) (template : string),
    DjangoVue.render (Sample.objects 4) (DjangoVue.current_request (Sample.objects 4)) []
    = DjangoVue.Ok content
    /\ DjangoVue.BeautifulSoup (Libraries := Sample.libraries) content
         (DjangoVue.parser_of (DjangoVue.base (Sample.objects 4))) = DjangoVue.Ok soup0
    /\ DjangoVue.add_required_scripts (L := Sample.libraries) (DjangoVue.base (Sample.objects 4)) soup0
       = DjangoVue.Ok soup1
    /\ Bs4.find "body" soup1 = Some body
    /\ DjangoVue.for_each
         (fun c => DjangoVue.get_vue_definition (L := Sample.libraries) c Sample.a_request None)
         (DjangoVue.instances Sample.objects (Sample.objects 4) 4) Sample.objects
       = (DjangoVue.Ok definitions, Sample.router_page_store)
    /\ (let script_text : string :=
          (Py.nl ++ Py.spaces 12 ++ "const { loadModule } = window[" ++ Py.dquote
           ++ "vue3-sfc-loader" ++ Py.dquote ++ "];" ++ Py.nl
           ++ Py.spaces 12 ++ Py.join Py.nl definitions ++ Py.nl
           ++ Py.spaces 12 ++ "const app = Vue.createApp(" ++ DjangoVue.get_vue_name (Sample.objects 4) ++ ")"
           ++ Py.nl
           ++ Py.spaces 12
           ++ Py.join Py.nl
                (map (fun kv : string * DjangoVue.oid =>
                        "app.component(" ++ Py.dquote ++ fst kv ++ Py.dquote ++ ", "
                        ++ DjangoVue.get_vue_name (Sample.objects (snd kv)) ++ ")")
                     (DjangoVue.vue_components (Sample.objects 4)))
           ++ Py.nl
           ++ Py.spaces 12 ++ "const router = VueRouter.createRouter({" ++ Py.nl
           ++ Py.spaces 14 ++ "history: VueRouter.createWebHashHistory()," ++ Py.nl
           ++ Py.spaces 14 ++ "routes: ["
           ++ Py.join ","
                (map (fun kv : string * DjangoVue.oid =>
                        "{ path: " ++ Py.dquote ++ fst kv ++ Py.dquote ++ ", component: "
                        ++ DjangoVue.get_vue_name (Sample.objects (snd kv)) ++ " }")
                     (DjangoVue.vue_routes (Sample.objects 4)))
           ++ "]" ++ Py.nl
           ++ Py.spaces 12 ++ "})" ++ Py.nl
           ++ Py.spaces 12 ++ "app.use(router)" ++ Py.nl
           ++ Py.spaces 12 ++ "app.mount(" ++ Py.dquote ++ "#app" ++ Py.dquote ++ ")" ++ Py.nl
           ++ Py.spaces 8)%string in
        let styles :=
          map (Bs4.prune "style") (Bs4.find_all "style" (Bs4.tag_contents body)) in
        let scripts :=
          map (Bs4.prune "script")
              (Bs4.find_all "script"
                 (Bs4.strip "style" (Bs4.tag_contents body))) in
        let children :=
          styles
          ++ [ Bs4.Tag "div" [("id", "app")] [];
               Bs4.Tag "script" [] [Bs4.NavigableString script_text] ]
          ++ scripts in
        Bs4.update_first "body" (Bs4.set_contents children) soup1 = Some Sample.router_page_soup
        /\ Bs4.find "body" Sample.router_page_soup = Some (Bs4.set_contents children body)
        /\ Bs4.tag_contents (Bs4.set_contents children body) = children
        /\ Py.substring_of template script_text)
    /\ fst (DjangoVue.get_vue_template (L := Sample.libraries) 4 Sample.a_request [] Sample.objects)
       = DjangoVue.Ok template
    /\ DjangoVue.get (L := Sample.libraries) 4 Sample.a_request [] Sample.objects
       = (DjangoVue.Ok (DjangoVue.renderContents (Libraries := Sample.libraries) Sample.router_page_soup), Sample.router_page_store).
Proof.
  apply (get_rebuilds_body (L := Sample.libraries) 4 Sample.a_request []
           Sample.objects Sample.router_page_store Sample.router_page_soup).
  vm_compute. reflexivity.
Defined.

(** The response for the page of object 0, whose body holds a paragraph, a
    style element and a script element: the paragraph is in the template
    text only. *)
Lemma get_body_sample :
  match fst (DjangoVue.get_soup (L := Sample.libraries)
               0 Sample.a_request [] Sample.objects) with
  | DjangoVue.Ok s' =>
      match Bs4.find "body" s' with
      | Some (Bs4.Tag _ _
                [ Bs4.Tag "style" [] [Bs4.NavigableString "p { color: red }"];
                  Bs4.Tag "div" [("id", "app")] [];
                  Bs4.Tag "script" [] [Bs4.NavigableString text];
                  Bs4.Tag "script" [("src", "https://unpkg.com/axios")] [] ]) =>
          Py.contains "template: `<p>{{ message }}</p>`" text = true
      | _ => False
      end
  | DjangoVue.Raise _ => False
  end.
Proof. vm_compute. reflexivity. Qed.

(** * Further properties *)

(** ** Delimiters *)

Section DelimiterFacts.

Import Py.

Lemma replace_twice_length (a b : ascii) (s : string) :
  String.length (replace (twice a) (twice b) s) = String.length s.
Proof.
  induction s as [|c s IH IH2] using string_pair_ind; [reflexivity|].
  destruct (twice_cases a c s) as [[-> [t ->]] | Hm].
  - rewrite replace_twice_hit. cbn [String.length]. now rewrite (IH2 a t eq_refl).
  - rewrite (replace_twice_miss _ _ _ _ Hm). cbn [String.length]. now rewrite IH.
Qed.

End DelimiterFacts.

(** X1.  Rewriting the delimiters keeps the length of the text: each
    two-character delimiter is replaced by a two-character one. *)
Theorem replace_delimiters_length (s : string) :
  String.length (DjangoVue.replace_delimiters s) = String.length s.
Proof.
  unfold DjangoVue.replace_delimiters.
  rewrite (replace_twice_length "]" "}"). apply (replace_twice_length "[" "{").
Qed.

Section TemplateTextFacts.

Import Py Bs4 DjangoVue.
Context {L : Libraries}.

(** Whatever the class of the view, a template that is returned went
    through the rewriting of the delimiters. *)
Lemma get_vue_template_rewritten (self : oid) (request : HttpRequest)
    (kw : kwargs) (st : store) (t : string) :
  fst (get_vue_template self request kw st) = Ok t ->
  exists x, t = replace_delimiters x.
Proof.
  unfold get_vue_template, bind, read, lift, ret.
  cbn [set_request]. rewrite Nat.eqb_refl.
  cbn [with_request base render current_request DjangoVue.request].
  destruct (render (st self) (Some request) kw) as [content|e]; [|discriminate].
  destruct (base (st self));
    try (destruct (BeautifulSoup content _) as [soup|e]; [|discriminate];
         destruct (find_body soup) as [body|e]; [|discriminate]);
    cbn [fst]; intros [= <-]; eauto.
Qed.

End TemplateTextFacts.

(** X2.  A template returned by [get_vue_template], of a component or of
    a single-file component, holds neither [[[] nor []]]. *)
Theorem template_without_square_delimiters
    {L : DjangoVue.Libraries} (self : DjangoVue.oid)
    (request : DjangoVue.HttpRequest) (kw : DjangoVue.kwargs)
    (st : DjangoVue.store) (t : string) :
  fst (DjangoVue.get_vue_template self request kw st) = DjangoVue.Ok t ->
  Py.contains "[[" t = false /\ Py.contains "]]" t = false.
Proof.
  intros H. destruct (get_vue_template_rewritten self request kw st t H) as [x ->].
  apply replace_delimiters_clean.
Qed.

Lemma template_without_square_delimiters_witness :
  Py.contains "[[" "<html><head></head><body><li>{{ item }}</li></body></html>"
  = false
  /\ Py.contains "]]" "<html><head></head><body><li>{{ item }}</li></body></html>"
     = false.
Proof.
  apply (template_without_square_delimiters (L := Sample.libraries)
           2 Sample.a_request [] Sample.objects).
  reflexivity.
Defined.

(** ** The suffix of a class name *)

Section SuffixFacts.

Import Py Re.

Lemma literal_prefix (p s : string) :
  literal false p s = true -> s = (p ++ drop (String.length p) s)%string.
Proof.
  revert s. induction p as [|a p IH]; intros s H; [reflexivity|].
  destruct s as [|b s]; [discriminate|]. cbn [literal] in H.
  apply andb_true_iff in H. destruct H as [Hab Hp].
  apply Ascii.eqb_eq in Hab. subst b. cbn. f_equal. now apply IH.
Qed.

Lemma dollar_cases (r : string) : dollar r = true -> r = EmptyString \/ r = nl.
Proof.
  destruct r as [|c [|d r]]; cbn [dollar]; intros H.
  - now left.
  - apply Ascii.eqb_eq in H. subst c. now right.
  - discriminate.
Qed.

(** A match of the case-sensitive pattern takes the string to its end, but
    for a final newline. *)
Lemma match_here_some (s rest : string) :
  match_here false s = Some rest ->
  s = "component" \/ s = ("component" ++ nl)%string
  \/ s = "view" \/ s = ("view" ++ nl)%string.
Proof.
  unfold match_here. intros H.
  destruct (literal false "component" s && dollar (drop 9 s)) eqn:E1.
  - apply andb_true_iff in E1. destruct E1 as [Hl Hd].
    apply literal_prefix in Hl. cbn [String.length] in Hl.
    destruct (dollar_cases _ Hd) as [E|E]; rewrite E in Hl; rewrite Hl; auto.
  - destruct (literal false "view" s && dollar (drop 4 s)) eqn:E2; [|discriminate].
    apply andb_true_iff in E2. destruct E2 as [Hl Hd].
    apply literal_prefix in Hl. cbn [String.length] in Hl.
    destruct (dollar_cases _ Hd) as [E|E]; rewrite E in Hl; rewrite Hl; auto.
Qed.

(** An equation between a string of unknown start and known end and a
    literal, settled character by character. *)
Ltac settle H p :=
  repeat (destruct p as [|? p]; cbn in H;
          [discriminate H | first [discriminate H | injection H as _ H]]).

Lemma no_match_before (p suffix : string) :
  suffix = "view" \/ suffix = "component"
  \/ suffix = "View" \/ suffix = "Component" ->
  p <> EmptyString -> match_here false (p ++ suffix) = None.
Proof.
  intros Hs Hp. destruct (match_here false (p ++ suffix)) as [rest|] eqn:E;
    [|reflexivity].
  exfalso. apply match_here_some in E.
  destruct p as [|c p]; [now apply Hp|]. clear Hp.
  destruct Hs as [-> | [-> | [-> | ->]]]; destruct E as [E|[E|[E|E]]];
    cbn in E; injection E as _ E; settle E p.
Qed.

Lemma sub_step (count : nat) (c : ascii) (p suffix : string) :
  suffix = "view" \/ suffix = "component"
  \/ suffix = "View" \/ suffix = "Component" ->
  sub_component_view count 0 (String c (p ++ suffix))
  = String c (sub_component_view count 0 (p ++ suffix)).
Proof.
  intros Hs.
  assert (Hn : match_here false (String c p ++ suffix) = None).
  { apply no_match_before; [exact Hs | discriminate]. }
  cbn [append] in Hn. cbn [sub_component_view].
  change (ignorecase 0) with false. now rewrite Hn.
Qed.

Lemma sub_lowercase_suffix (count : nat) (p suffix : string) :
  suffix = "view" \/ suffix = "component" ->
  sub_component_view count 0 (p ++ suffix) = p.
Proof.
  intros Hs. induction p as [|c p IH].
  - destruct Hs as [-> | ->]; reflexivity.
  - cbn [append]. rewrite sub_step; [|tauto]. now rewrite IH.
Qed.




End SuffixFacts.

(** X3.  A class name that ends in lower-case [view] or [component] loses
    that suffix, whatever comes before it: the component name is the
    camelized rest. *)
Theorem get_vue_name_lowercase (v : DjangoVue.view) (p : string) :
  DjangoVue.class_name v = (p ++ "view")%string
  \/ DjangoVue.class_name v = (p ++ "component")%string ->
  DjangoVue.get_vue_name v = Re.camelize p.
Proof.
  intros H. unfold DjangoVue.get_vue_name.
  destruct H as [-> | ->]; rewrite sub_lowercase_suffix; tauto.
Qed.

Lemma get_vue_name_lowercase_witness :
  DjangoVue.get_vue_name (Sample.objects 3) = Re.camelize "Item".
Proof.
  apply (get_vue_name_lowercase (Sample.objects 3) "Item").
  left. reflexivity.
Defined.



(** ** The library step, further *)

Section LibraryStepFacts.

Import Py Bs4 DjangoVue Further.
Context {L : Libraries}.

Lemma filter_unbound (l : list node) :
  filter_raising (fun n => src_mentions_unbound (get_attr "src" n)) l
  = if existsb has_src l then Raise (NameError "name") else Ok [].
Proof.
  induction l as [|x l IH]; [reflexivity|].
  cbn [filter_raising existsb]. unfold has_src at 1, src_mentions_unbound at 1.
  destruct (get_attr "src" x) as [u|]; [destruct (truthy u); [reflexivity|]|];
    cbn [result_bind orb]; rewrite IH; now destruct (existsb has_src l).
Qed.

Lemma add_script_if_not_present_cases (identifier src : string) (s : soup) :
  add_script_if_not_present identifier src s
  = if existsb has_src (find_all "script" s)
    then Raise (NameError "name") else Ok s.
Proof.
  unfold add_script_if_not_present. rewrite filter_unbound.
  now destruct (existsb has_src (find_all "script" s)).
Qed.

Lemma in_turn_all_present (libs : list (string * string)) (s : soup) :
  forallb (fun lib => script_present (fst lib) s) libs = true ->
  in_turn add_unless_present libs s = Ok s.
Proof.
  induction libs as [|lib r IH]; intros H; [reflexivity|].
  cbn [forallb] in H. apply andb_true_iff in H. destruct H as [H1 H2].
  rewrite in_turn_cons. unfold add_unless_present at 1. rewrite H1.
  cbn [result_bind]. now apply IH.
Qed.

Lemma in_turn_no_head (libs : list (string * string)) (s : soup) :
  find "head" s = None ->
  in_turn add_unless_present libs s
  = if forallb (fun lib => script_present (fst lib) s) libs
    then Ok s else Raise (AttributeError "append").
Proof.
  intros Hh. induction libs as [|lib r IH]; [reflexivity|].
  rewrite in_turn_cons. cbn [forallb]. unfold add_unless_present at 1.
  destruct (script_present (fst lib) s); cbn [andb result_bind].
  - exact IH.
  - unfold head_append. now rewrite (update_first_none "head" _ s Hh).
Qed.

Lemma hd_filter_existsb {A : Type} (p : A -> bool) (l : list A) :
  hd_error (filter p l) = None <-> existsb p l = false.
Proof.
  induction l as [|x l IH]; [tauto|].
  cbn [filter existsb]. destruct (p x); cbn [orb hd_error]; [|exact IH].
  split; discriminate.
Qed.

Lemma find_none_existsb (name : string) (l : list node) :
  find name l = None <-> existsb (is_tag name) (descendants l) = false.
Proof. apply hd_filter_existsb. Qed.

Lemma is_tag_shallow (name t : string) (a : list (string * string))
    (cs cs' : list node) :
  is_tag name (Tag t a cs) = is_tag name (Tag t a cs').
Proof. reflexivity. Qed.

Lemma no_body_in_script_tags (srcs : list string) :
  existsb (is_tag "body") (descendants (map script_tag srcs)) = false.
Proof. induction srcs as [|u srcs IH]; [reflexivity | exact IH]. Qed.

(** What the step of [views.py] returns, when it returns: the document
    with script tags appended to its head, or the document itself. *)
Lemma view_step_result (s s' : soup) :
  in_turn add_unless_present view_libraries s = Ok s' ->
  (exists added,
     update_first "head" (extend (map script_tag added)) s = Some s'
     /\ added = missing view_libraries s)
  \/ (find "head" s = None /\ s' = s
      /\ forallb (fun lib => script_present (fst lib) s) view_libraries = true).
Proof.
  intros H. destruct (find "head" s) as [h|] eqn:Hh.
  - left.
    assert (U0 : update_first "head" (extend (map script_tag [])) s = Some s).
    { destruct (update_first_some "head" (extend []) s h Hh) as [s1 U].
      cbn [map]. rewrite U.
      now rewrite (update_first_id "head" (extend []) s s1 extend_nil U). }
    destruct (in_turn_add_unless_present view_libraries s [] s U0)
      as [s1 [R U]]; [reflexivity | apply view_libraries_independent |].
    rewrite R in H. injection H as <-. cbn [app] in U. eauto.
  - right. rewrite (in_turn_no_head _ s Hh) in H.
    destruct (forallb _ view_libraries); [|discriminate].
    injection H as <-. auto.
Qed.

Lemma view_step_raises (s : soup) (e : exn) :
  in_turn add_unless_present view_libraries s = Raise e ->
  e = AttributeError "append" /\ find "head" s = None.
Proof.
  intros H. destruct (find "head" s) as [h|] eqn:Hh.
  - assert (U0 : update_first "head" (extend (map script_tag [])) s = Some s).
    { destruct (update_first_some "head" (extend []) s h Hh) as [s1 U].
      cbn [map]. rewrite U.
      now rewrite (update_first_id "head" (extend []) s s1 extend_nil U). }
    destruct (in_turn_add_unless_present view_libraries s [] s U0)
      as [s1 [R U]]; [reflexivity | apply view_libraries_independent |].
    congruence.
  - rewrite (in_turn_no_head _ s Hh) in H.
    destruct (forallb _ view_libraries); [discriminate|].
    injection H as <-. auto.
Qed.

(** The step neither brings a body into the document nor takes it out. *)
Lemma view_step_body (s s' : soup) :
  in_turn add_unless_present view_libraries s = Ok s' ->
  existsb (is_tag "body") (descendants s')
  = existsb (is_tag "body") (descendants s).
Proof.
  intros H. destruct (view_step_result s s' H) as [[added [U _]] | [_ [-> _]]];
    [|reflexivity].
  rewrite (existsb_update_first _ "head" _ s s' (is_tag_shallow "body") U).
  now rewrite no_body_in_script_tags, orb_false_r.
Qed.

Lemma present_after_step (s s' : soup) (name url : string) :
  in_turn add_unless_present view_libraries s = Ok s' ->
  In (name, url) view_libraries ->
  contains name url = true ->
  script_present name s' = true.
Proof.
  intros H Hin Hc.
  assert (Hn : truthy name = true).
  { cbn [view_libraries In] in Hin.
    repeat (destruct Hin as [Hin|Hin];
            [injection Hin as <- <-; reflexivity|]).
    contradiction. }
  destruct (view_step_result s s' H) as [[added [U ->]] | [_ [-> Hall]]].
  - rewrite script_present_existsb.
    rewrite (existsb_update_first _ "head" _ s s' (is_script_for_shallow name) U).
    rewrite <- script_present_existsb, existsb_script_tags.
    destruct (script_present name s) eqn:E; [reflexivity|].
    cbn [orb]. apply existsb_exists. exists url. split.
    + unfold missing. apply (in_map snd _ (name, url)). apply filter_In.
      split; [exact Hin|]. cbn [fst]. now rewrite E.
    + cbn [src_mentions]. now rewrite Hc, (contains_truthy name url Hn Hc).
  - rewrite forallb_forall in Hall. apply (Hall (name, url) Hin).
Qed.

Lemma in_turn_mixin (libs : list (string * string)) (s : soup) :
  in_turn add_script_if_not_present libs s
  = if existsb has_src (find_all "script" s)
    then match libs with
         | [] => Ok s
         | _ :: _ => Raise (NameError "name")
         end
    else Ok s.
Proof.
  induction libs as [|lib r IH].
  - now destruct (existsb has_src (find_all "script" s)).
  - rewrite in_turn_cons, add_script_if_not_present_cases.
    destruct (existsb has_src (find_all "script" s)) eqn:E; [reflexivity|].
    cbn [result_bind]. exact IH.
Qed.

Lemma mixin_step (s : soup) :
  add_required_scripts DjangoVueComponentMixin s
  = if existsb has_src (find_all "script" s)
    then Raise (NameError "name") else Ok s.
Proof. cbn [add_required_scripts]. apply in_turn_mixin. Qed.

End LibraryStepFacts.

(** X5.  The library step of the mixin never appends a script: it returns
    the document as it is when no script element has a non-empty [src], and
    raises [NameError] as soon as one has. *)
Theorem mixin_step_cases {L : DjangoVue.Libraries} (s : Bs4.soup) :
  DjangoVue.add_required_scripts DjangoVue.DjangoVueComponentMixin s
  = if existsb Further.has_src (Bs4.find_all "script" s)
    then DjangoVue.Raise (DjangoVue.NameError "name")
    else DjangoVue.Ok s.
Proof. apply mixin_step. Qed.

(** X6.  A mixin view whose document holds a script element with a
    non-empty [src] cannot be served: [get] raises [NameError]. *)
Theorem mixin_get_raises_name_error
    {L : DjangoVue.Libraries} (self : DjangoVue.oid)
    (request : DjangoVue.HttpRequest) (kw : DjangoVue.kwargs)
    (st : DjangoVue.store) (content : string) (soup0 : Bs4.soup)
    (n : Bs4.node) (u : string) :
  DjangoVue.base (st self) = DjangoVue.DjangoVueComponentMixin ->
  DjangoVue.render (st self) (DjangoVue.current_request (st self)) kw
  = DjangoVue.Ok content ->
  DjangoVue.BeautifulSoup content DjangoVue.html5lib = DjangoVue.Ok soup0 ->
  In n (Bs4.find_all "script" soup0) ->
  Bs4.get_attr "src" n = Some u ->
  Py.truthy u = true ->
  fst (DjangoVue.get self request kw st)
  = DjangoVue.Raise (DjangoVue.NameError "name").
Proof.
  intros Hb Hr Hp Hn Hu Ht.
  rewrite get_unfold, get_soup_unfold, Hr, Hb. cbn [DjangoVue.parser_of].
  rewrite Hp, mixin_step.
  assert (E : existsb Further.has_src (Bs4.find_all "script" soup0) = true);
    [|now rewrite E].
  apply existsb_exists. exists n. split; [exact Hn|].
  unfold Further.has_src. now rewrite Hu.
Qed.

Lemma mixin_get_raises_name_error_witness :
  fst (DjangoVue.get (L := Sample.libraries) 8 Sample.a_request [] Sample.objects)
  = DjangoVue.Raise (DjangoVue.NameError "name").
Proof.
  apply (mixin_get_raises_name_error (L := Sample.libraries)
           8 Sample.a_request [] Sample.objects Sample.router_content
           Sample.router_soup
           (Bs4.Tag "script" [("src", "https://unpkg.com/vue-router@next")] [])
           "https://unpkg.com/vue-router@next").
  - reflexivity.
  - reflexivity.
  - reflexivity.
  - vm_compute. left. reflexivity.
  - reflexivity.
  - reflexivity.
Defined.

(** X7.  The library step of [views.py] is idempotent when the static URL
    of django-vue holds the name: on the document it returned it returns
    that document again, with nothing appended. *)
Theorem view_step_idempotent
    {L : DjangoVue.Libraries} (b : DjangoVue.base_class) (s s' : Bs4.soup) :
  b <> DjangoVue.DjangoVueComponentMixin ->
  Py.contains "django-vue" (DjangoVue.static "django-vue.js") = true ->
  DjangoVue.add_required_scripts b s = DjangoVue.Ok s' ->
  DjangoVue.add_required_scripts b s' = DjangoVue.Ok s'.
Proof.
  intros Hb Hs H.
  assert (K : DjangoVue.in_turn DjangoVue.add_unless_present
                DjangoVue.view_libraries s = DjangoVue.Ok s'
              -> DjangoVue.in_turn DjangoVue.add_unless_present
                   DjangoVue.view_libraries s' = DjangoVue.Ok s').
  { intros R. apply in_turn_all_present. apply forallb_forall.
    intros [name url] Hin. cbn [fst].
    apply (present_after_step s s' name url R Hin).
    cbn [DjangoVue.view_libraries In] in Hin.
    repeat (destruct Hin as [Hin|Hin];
            [injection Hin as <- <-; first [reflexivity | exact Hs]|]).
    contradiction. }
  destruct b; try congruence; exact (K H).
Qed.

Lemma view_step_idempotent_witness :
  DjangoVue.add_required_scripts (L := Sample.libraries)
    DjangoVue.DjangoVueComponent Further.hello_with_libraries
  = DjangoVue.Ok Further.hello_with_libraries.
Proof.
  apply (view_step_idempotent (L := Sample.libraries)
           DjangoVue.DjangoVueComponent Sample.hello_soup
           Further.hello_with_libraries).
  - discriminate.
  - reflexivity.
  - vm_compute. reflexivity.
Defined.

(** X8.  On a document without a head, as lxml leaves a fragment, the
    library step of [views.py] returns the document as it is when every
    library is already mentioned and raises [AttributeError] otherwise: it
    has no head to append to. *)
Theorem view_step_without_head
    {L : DjangoVue.Libraries} (b : DjangoVue.base_class) (s : Bs4.soup) :
  b <> DjangoVue.DjangoVueComponentMixin ->
  Bs4.find "head" s = None ->
  DjangoVue.add_required_scripts b s
  = if forallb (fun lib => DjangoVue.script_present (fst lib) s)
         DjangoVue.view_libraries
    then DjangoVue.Ok s
    else DjangoVue.Raise (DjangoVue.AttributeError "append").
Proof.
  intros Hb Hh. destruct b; try congruence; apply (in_turn_no_head _ s Hh).
Qed.

Lemma view_step_without_head_witness :
  DjangoVue.add_required_scripts (L := Sample.libraries)
    DjangoVue.DjangoVueComponent Further.headless_soup
  = if forallb (fun lib => DjangoVue.script_present (fst lib) Further.headless_soup)
         (DjangoVue.view_libraries (L := Sample.libraries))
    then DjangoVue.Ok Further.headless_soup
    else DjangoVue.Raise (DjangoVue.AttributeError "append").
Proof.
  apply (view_step_without_head (L := Sample.libraries)
           DjangoVue.DjangoVueComponent Further.headless_soup).
  - discriminate.
  - reflexivity.
Defined.

(** The page of object 9, a fragment that lxml wraps in a body without a
    head, cannot be served. *)
Lemma get_headless_sample :
  fst (DjangoVue.get (L := Further.libraries) 9 Sample.a_request [] Further.objects)
  = DjangoVue.Raise (DjangoVue.AttributeError "append").
Proof. vm_compute. reflexivity. Qed.

(** X9.  A view of [views.py] whose document has no body is not served:
    [get] raises [AttributeError], on the body it does not find, or before
    that on the head when that is missing too. *)
Theorem get_without_body
    {L : DjangoVue.Libraries} (self : DjangoVue.oid)
    (request : DjangoVue.HttpRequest) (kw : DjangoVue.kwargs)
    (st : DjangoVue.store) (content : string) (soup0 : Bs4.soup) :
  DjangoVue.base (st self) <> DjangoVue.DjangoVueComponentMixin ->
  DjangoVue.render (st self) (DjangoVue.current_request (st self)) kw
  = DjangoVue.Ok content ->
  DjangoVue.BeautifulSoup content DjangoVue.lxml = DjangoVue.Ok soup0 ->
  Bs4.find "body" soup0 = None ->
  fst (DjangoVue.get self request kw st)
  = DjangoVue.Raise (DjangoVue.AttributeError "find_all")
  \/ (Bs4.find "head" soup0 = None
      /\ fst (DjangoVue.get self request kw st)
         = DjangoVue.Raise (DjangoVue.AttributeError "append")).
Proof.
  intros Hb Hr Hp Hbody.
  assert (Pa : DjangoVue.parser_of (DjangoVue.base (st self)) = DjangoVue.lxml).
  { destruct (DjangoVue.base (st self)); try congruence; reflexivity. }
  assert (St : DjangoVue.add_required_scripts (DjangoVue.base (st self)) soup0
               = DjangoVue.in_turn DjangoVue.add_unless_present
                   DjangoVue.view_libraries soup0).
  { destruct (DjangoVue.base (st self)); try congruence; reflexivity. }
  rewrite get_unfold, get_soup_unfold, Hr, Pa, Hp, St.
  destruct (DjangoVue.in_turn _ _ soup0) as [soup1|e] eqn:E.
  - left. pose proof (view_step_body soup0 soup1 E) as B.
    apply find_none_existsb in Hbody. rewrite Hbody in B.
    apply find_none_existsb in B. unfold DjangoVue.find_body. now rewrite B.
  - right. destruct (view_step_raises soup0 e E) as [-> Hh]. auto.
Qed.

Lemma get_without_body_witness :
  fst (DjangoVue.get (L := Further.libraries)
         10 Sample.a_request [] Further.objects)
  = DjangoVue.Raise (DjangoVue.AttributeError "find_all")
  \/ (Bs4.find "head" Further.bodyless_soup = None
      /\ fst (DjangoVue.get (L := Further.libraries)
                10 Sample.a_request [] Further.objects)
         = DjangoVue.Raise (DjangoVue.AttributeError "append")).
Proof.
  apply (get_without_body (L := Further.libraries) 10 Sample.a_request []
           Further.objects Further.bodyless_content Further.bodyless_soup).
  - discriminate.
  - reflexivity.
  - reflexivity.
  - reflexivity.
Defined.

(** ** Extraction, further *)

Section ExtractionFacts.

Import Bs4 Further.

Lemma strip_app (name : string) (l1 l2 : list node) :
  strip name (l1 ++ l2) = strip name l1 ++ strip name l2.
Proof. apply flat_map_app. Qed.

Lemma strip_comm_node (a b : string) (n : node) :
  strip a (strip_node b n) = strip b (strip_node a n).
Proof.
  induction n as [s | t at' cs IH] using node_induction; [reflexivity|].
  rewrite !strip_node_tag.
  assert (K : strip a (strip b cs) = strip b (strip a cs)).
  { induction IH as [|c cs Hc _ IHcs]; [reflexivity|].
    now rewrite !strip_cons, !strip_app, Hc, IHcs. }
  destruct (String.eqb t b) eqn:Eb; destruct (String.eqb t a) eqn:Ea;
    cbn [strip flat_map]; rewrite ?strip_node_tag, ?Ea, ?Eb; cbn [app];
    try reflexivity.
  fold (strip a (strip b cs)). fold (strip b (strip a cs)). now rewrite K.
Qed.

Lemma strip_comm (a b : string) (l : list node) :
  strip a (strip b l) = strip b (strip a l).
Proof.
  induction l as [|x l IH]; [reflexivity|].
  now rewrite !strip_cons, !strip_app, strip_comm_node, IH.
Qed.

Lemma strip_twice (a : string) (l : list node) :
  strip a (strip a l) = strip a l.
Proof. apply strip_absent, find_all_strip_same. Qed.

Lemma texts_app (l1 l2 : list node) : texts (l1 ++ l2) = texts l1 ++ texts l2.
Proof. unfold texts. now rewrite descendants_app, flat_map_app. Qed.

Lemma texts_cons (x : node) (l : list node) : texts (x :: l) = texts [x] ++ texts l.
Proof. apply (texts_app [x] l). Qed.

Lemma texts_tag (t : string) (a : list (string * string)) (cs : list node) :
  texts [Tag t a cs] = texts cs.
Proof.
  unfold texts, descendants. cbn [flat_map self_and_descendants].
  now rewrite app_nil_r.
Qed.

Lemma permutation_split {A : Type} (a a1 a2 b b1 b2 : list A) :
  Permutation a (a1 ++ a2) -> Permutation b (b1 ++ b2) ->
  Permutation (a ++ b) ((a1 ++ b1) ++ (a2 ++ b2)).
Proof.
  intros Ha Hb. rewrite Ha, Hb, <- !app_assoc.
  apply Permutation_app_head. rewrite !app_assoc.
  apply Permutation_app_tail. apply Permutation_app_comm.
Qed.

Lemma extract_keeps_texts_node (name : string) (n : node) :
  Permutation (texts [n])
    (texts (strip_node name n) ++ texts (map (prune name) (find_all name [n]))).
Proof.
  induction n as [s | t a cs IH] using node_induction.
  - cbn. apply Permutation_refl.
  - assert (K : Permutation (texts cs)
                  (texts (strip name cs)
                   ++ texts (map (prune name) (find_all name cs)))).
    { induction IH as [|c cs Hc _ IHcs]; [apply Permutation_refl|].
      rewrite texts_cons, strip_cons, texts_app, find_all_cons, map_app, texts_app.
      now apply permutation_split. }
    rewrite texts_tag, strip_node_tag, find_all_tag.
    destruct (String.eqb t name); cbn [app map prune].
    + rewrite texts_cons, texts_tag. exact K.
    + rewrite texts_tag. exact K.
Qed.

Lemma extract_keeps_texts (name : string) (l : list node) :
  Permutation (texts l)
    (texts (snd (extract_all name l)) ++ texts (fst (extract_all name l))).
Proof.
  cbn [extract_all fst snd]. induction l as [|x l IH]; [apply Permutation_refl|].
  rewrite texts_cons, strip_cons, texts_app, find_all_cons, map_app, texts_app.
  apply permutation_split; [apply extract_keeps_texts_node | exact IH].
Qed.

End ExtractionFacts.

(** X10.  The tree that [get_vue_template] serializes does not depend on
    the order in which the style and the script elements are extracted, and
    extracting the same elements once more changes nothing. *)
Theorem extraction_order_irrelevant (a b : string) (l : list Bs4.node) :
  snd (Bs4.extract_all a (snd (Bs4.extract_all b l)))
  = snd (Bs4.extract_all b (snd (Bs4.extract_all a l)))
  /\ snd (Bs4.extract_all a (snd (Bs4.extract_all a l)))
     = snd (Bs4.extract_all a l)
  /\ fst (Bs4.extract_all a (snd (Bs4.extract_all a l))) = [].
Proof.
  cbn [Bs4.extract_all fst snd]. split; [apply strip_comm|].
  split; [apply strip_twice|]. now rewrite find_all_strip_same.
Qed.

(** X11.  Extraction loses no text and makes none up: the texts of a tree
    are, up to their order, those of what is left of it together with those
    of the extracted elements. *)
Theorem extraction_keeps_texts (name : string) (l : list Bs4.node) :
  Permutation (Further.texts l)
    (Further.texts (snd (Bs4.extract_all name l))
     ++ Further.texts (fst (Bs4.extract_all name l))).
Proof. apply extract_keeps_texts. Qed.

(** ** Instances, further *)

Section InstanceFacts.

Import DjangoVue.
Context {V : Type} (key : V -> string).

Lemma dict_set_fresh (k : string) (v : V) (d : list (string * V)) :
  ~ In k (map fst d) -> dict_set k v d = d ++ [(k, v)].
Proof.
  induction d as [|[k1 v1] r IH]; intros H; [reflexivity|].
  cbn [dict_set]. cbn [map fst In] in H.
  destruct (String.eqb k1 k) eqn:E.
  - apply String.eqb_eq in E. tauto.
  - cbn [app]. rewrite IH; [reflexivity | tauto].
Qed.

Lemma dict_by_distinct (l : list V) :
  NoDup (map key l) -> dict_by key l = map (fun c => (key c, c)) l.
Proof.
  induction l as [|c l IH] using rev_ind; intros H; [reflexivity|].
  rewrite map_app in H. cbn [map] in H.
  apply NoDup_remove in H. rewrite app_nil_r in H. destruct H as [Hn Hc].
  rewrite dict_by_snoc, (IH Hn), map_app. cbn [map].
  apply dict_set_fresh. now rewrite map_map, (map_ext _ key).
Qed.

End InstanceFacts.

(** X12.  When the names derived from the candidates are pairwise distinct,
    no candidate is dropped: the instances are the sub-components, the
    routed views and the view itself, in that order. *)
Theorem instances_of_distinct_names
    (st : DjangoVue.store) (v : DjangoVue.view) (self : DjangoVue.oid) :
  NoDup (map (fun c => DjangoVue.get_vue_name (st c)) (DjangoVue.candidates v self)) ->
  DjangoVue.instances st v self = DjangoVue.candidates v self.
Proof.
  intros H. unfold DjangoVue.instances, DjangoVue.values.
  rewrite (dict_by_distinct _ _ H), map_map. cbn [snd]. apply map_id.
Qed.

Lemma instances_of_distinct_names_witness :
  DjangoVue.instances Further.objects (Further.objects 11) 11
  = DjangoVue.candidates (Further.objects 11) 11.
Proof.
  apply (instances_of_distinct_names Further.objects (Further.objects 11) 11).
  vm_compute. repeat constructor; cbn; intuition discriminate.
Defined.

(** X13.  Every constant that a registration or a route of the
    bootstrapping script refers to is defined: for each declared
    sub-component and each routed view, an instance with the same derived
    name is among those whose definitions are emitted. *)
Theorem referenced_names_defined
    (st : DjangoVue.store) (v : DjangoVue.view) (self : DjangoVue.oid)
    (k : string) (o : DjangoVue.oid) :
  In (k, o) (DjangoVue.get_vue_components v)
  \/ In (k, o) (DjangoVue.get_vue_routes v) ->
  exists c, In c (DjangoVue.instances st v self)
            /\ DjangoVue.get_vue_name (st c) = DjangoVue.get_vue_name (st o).
Proof.
  intros H.
  assert (Hin : In o (DjangoVue.candidates v self)).
  { unfold DjangoVue.candidates, DjangoVue.values. rewrite !in_app_iff.
    destruct H as [H|H]; [left | right; left]; apply (in_map snd _ _ H). }
  destruct (last_by_some (fun c => DjangoVue.get_vue_name (st c)) _ o Hin)
    as [c Hc].
  destruct (last_by_key _ _ _ _ Hc) as [Hk _].
  exists c. split; [|exact Hk].
  unfold DjangoVue.instances. apply dict_by_values.
  cbn beta. now rewrite Hk.
Qed.

Lemma referenced_names_defined_witness :
  exists c, In c (DjangoVue.instances Sample.objects (Sample.objects 0) 0)
            /\ DjangoVue.get_vue_name (Sample.objects c)
               = DjangoVue.get_vue_name (Sample.objects 1).
Proof.
  apply (referenced_names_defined Sample.objects (Sample.objects 0) 0 "item" 1).
  left. vm_compute. left. reflexivity.
Defined.

(** ** Serving a page *)

Section ServingFacts.

Import Py Bs4 DjangoVue Further.
Context {L : Libraries}.

Lemma writes_only_request_kept (r : HttpRequest) (objs : list oid)
    (st st' : store) (o : oid) :
  writes_only r objs st st' ->
  DjangoVue.request (st o) = Some r -> DjangoVue.request (st' o) = Some r.
Proof.
  intros W H. destruct (W o) as [E|[_ E]]; rewrite E; [exact H | reflexivity].
Qed.

(** Computing a definition without a template sets the request on the
    object, whether or not the rendering succeeds. *)
Lemma get_vue_definition_sets (c : oid) (r : HttpRequest) (st : store) :
  DjangoVue.request (snd (get_vue_definition c r None st) c) = Some r.
Proof.
  assert (T : DjangoVue.request (snd (get_vue_template c r [] st) c) = Some r).
  { rewrite get_vue_template_store. cbn [set_request snd].
    now rewrite Nat.eqb_refl. }
  unfold get_vue_definition, bind, read, ret.
  destruct (base (st c));
    destruct (get_vue_template c r [] st) as [[t|e] st1]; exact T.
Qed.

Lemma for_each_sets (r : HttpRequest) (l : list oid) :
  forall (st st' : store) (ys : list string),
    for_each (fun c => get_vue_definition c r None) l st = (Ok ys, st') ->
    forall x, In x l -> DjangoVue.request (st' x) = Some r.
Proof.
  induction l as [|c l IH]; intros st st' ys H x Hx; [destruct Hx|].
  cbn [for_each] in H. unfold bind at 1 in H.
  pose proof (get_vue_definition_sets c r st) as Hc.
  destruct (get_vue_definition c r None st) as [[y|e] st1]; [|discriminate].
  cbn [snd] in Hc. unfold bind at 1 in H.
  pose proof (for_each_writes r (fun c => get_vue_definition c r None) l
                (fun c st0 => get_vue_definition_writes c r None st0) st1) as W.
  destruct (for_each _ l st1) as [[ys'|e] st2] eqn:El; [|discriminate].
  cbn [snd] in W. unfold ret in H. injection H as _ <-.
  destruct Hx as [<-|Hx].
  - apply (writes_only_request_kept r l st1 st2 c W Hc).
  - apply (IH st1 st2 ys' El x Hx).
Qed.




End ServingFacts.

(** X14.  After a request that [get] has answered, every instance whose
    definition it emitted, the view itself among them, carries the request
    in its [request] attribute. *)
Theorem get_sets_request_on_instances
    {L : DjangoVue.Libraries} (self : DjangoVue.oid)
    (request : DjangoVue.HttpRequest) (kw : DjangoVue.kwargs)
    (st st' : DjangoVue.store) (response : string) :
  DjangoVue.get self request kw st = (DjangoVue.Ok response, st') ->
  (forall o, In o (DjangoVue.instances st (st self) self) ->
             DjangoVue.request (st' o) = Some request)
  /\ DjangoVue.request (st' self) = Some request.
Proof.
  intros H.
  assert (K : forall o, In o (DjangoVue.instances st (st self) self) ->
                        DjangoVue.request (st' o) = Some request).
  { rewrite get_unfold, get_soup_unfold in H.
    destruct (DjangoVue.render (st self) _ kw) as [content|e]; [|discriminate].
    destruct (DjangoVue.BeautifulSoup content _) as [soup0|e]; [|discriminate].
    destruct (DjangoVue.add_required_scripts _ soup0) as [soup1|e]; [|discriminate].
    destruct (DjangoVue.find_body soup1) as [body|e]; [|discriminate].
    cbv zeta in H.
    destruct (DjangoVue.for_each _ _ st) as [[defs|e] st1] eqn:Ef; [|discriminate].
    injection H as _ <-. apply (for_each_sets request _ st st1 defs Ef). }
  split; [exact K|]. apply K, instances_self.
Qed.

Lemma get_sets_request_on_instances_witness :
  (forall o, In o (DjangoVue.instances Sample.objects (Sample.objects 4) 4) ->
             DjangoVue.request (Sample.router_page_store o) = Some Sample.a_request)
  /\ DjangoVue.request (Sample.router_page_store 4) = Some Sample.a_request.
Proof.
  apply (get_sets_request_on_instances (L := Sample.libraries)
           4 Sample.a_request [] Sample.objects Sample.router_page_store
           (DjangoVue.renderContents (Libraries := Sample.libraries)
              Sample.router_page_soup)).
  vm_compute. reflexivity.
Defined.


